(** * The monitoring dashboard of team-c-monitor/frontend/app.py

    A shallow embedding of the Streamlit script: one run of the script is one
    refresh cycle.  The script reads the widgets, optionally sends a burst of
    synthetic logs, fetches [/metrics], folds the payload into the history
    kept in the session state and renders the page.

    Conventions.
    - A Python [str] is a [string]: its UTF-8 bytes.  [str.upper] maps the
      string character by character, with the upper-case forms of Unicode
      14.0 (CPython 3.11).
    - A Python [int] is a [Z], a Python [float] is a binary64 [float].
    - The value returned by [response.json()] is a [json].
    - The outside world of one run (widgets, clock, network) is an [Env];
      random numbers come from a generator of class [PyRandom]; what persists
      between runs is a [SessionState] and the generator's state.
    - pandas and Streamlit build and draw the charts outside the script:
      whether they raise on the data of a chart, and the rows pandas' sort
      returns, are read from the [Env] as well.
    - The page configuration and the style sheet are left out; the layout
      containers (columns, sidebar container) are flattened to the order in
      which the script writes into them. *)

From Stdlib Require Import List String Ascii ZArith NArith Bool Lia Floats.
Import ListNotations.

Local Open Scope string_scope.
Local Open Scope Z_scope.

(* Decimal literals denote the nearest binary64 value, as in Python. *)
#[local] Set Warnings "-inexact-float".

(** ** Python values read from JSON *)

#[local] Unset Elimination Schemes.
Inductive json : Type :=
| JNull
| JBool (b : bool)
| JInt (z : Z)
| JFloat (f : float)
| JStr (s : string)
| JArr (l : list json)
| JObj (items : list (string * json)).
#[local] Set Elimination Schemes.
(* [JObj] lists the items of a dict in insertion order. *)

Definition dict := list (string * json).

(** [d.get(key, default)] *)
Fixpoint dict_get (d : dict) (key : string) (default : json) : json :=
  match d with
  | [] => default
  | (k, v) :: rest => if String.eqb k key then v else dict_get rest key default
  end.

(** [key in d] *)
Fixpoint dict_has (d : dict) (key : string) : bool :=
  match d with
  | [] => false
  | (k, _) :: rest => String.eqb k key || dict_has rest key
  end.

(** The dict without [key]. *)
Fixpoint dict_del (d : dict) (key : string) : dict :=
  match d with
  | [] => []
  | (k, v) :: rest =>
      if String.eqb k key then dict_del rest key else (k, v) :: dict_del rest key
  end.

(** [s * n] on [str] *)
Fixpoint str_repeat (s : string) (n : nat) : string :=
  match n with
  | O => ""
  | S n' => s ++ str_repeat s n'
  end.

(** [l * n] on [list] *)
Fixpoint list_repeat {A : Type} (l : list A) (n : nat) : list A :=
  match n with
  | O => []
  | S n' => l ++ list_repeat l n'
  end.

(** [v * 100]; [None] where Python raises [TypeError]. *)
Definition py_mul100 (v : json) : option json :=
  match v with
  | JNull => None
  | JBool b => Some (JInt (if b then 100 else 0))
  | JInt z => Some (JInt (z * 100))
  | JFloat f => Some (JFloat (f * 100)%float)
  | JStr s => Some (JStr (str_repeat s 100))
  | JArr l => Some (JArr (list_repeat l 100))
  | JObj _ => None
  end.

(** Truth value of a Python object, as [if v:] tests it. *)
Definition py_truthy (v : json) : bool :=
  match v with
  | JNull => false
  | JBool b => b
  | JInt z => negb (z =? 0)
  | JFloat f => negb (f =? 0)%float
  | JStr s => negb (String.eqb s "")
  | JArr l => match l with [] => false | _ => true end
  | JObj d => match d with [] => false | _ => true end
  end.

(** ** Strings *)

Definition is_lower (c : ascii) : bool :=
  let n := N_of_ascii c in ((97 <=? n) && (n <=? 122))%N.

Definition upper_ascii (c : ascii) : ascii :=
  if is_lower c then ascii_of_N (N_of_ascii c - 32) else c.

(** [pat in s] *)
Fixpoint contains (pat s : string) : bool :=
  String.prefix pat s ||
  match s with
  | EmptyString => false
  | String _ rest => contains pat rest
  end.

(** The characters of a [str], as iterating over it yields them: a character
    is a lead byte followed by its UTF-8 continuation bytes. *)
Definition is_continuation (c : ascii) : bool :=
  (N.land (N_of_ascii c) 192 =? 128)%N.

Definition starts_with_continuation (s : string) : bool :=
  match s with
  | EmptyString => false
  | String c _ => is_continuation c
  end.

Fixpoint str_chars (s : string) : list string :=
  match s with
  | EmptyString => []
  | String c rest =>
      if starts_with_continuation rest then
        match str_chars rest with
        | [] => [String c ""]
        | ch :: more => String c ch :: more
        end
      else String c "" :: str_chars rest
  end.

(** The characters outside ASCII whose upper-case form is not the character
    itself, each with that form: the mappings of [str.upper] in CPython 3.11
    (Unicode 14.0). *)
Definition upper_forms : list (string * string) :=
  [ ("µ", "Μ"); ("ß", "SS"); ("à", "À"); ("á", "Á"); ("â", "Â");
    ("ã", "Ã"); ("ä", "Ä"); ("å", "Å"); ("æ", "Æ"); ("ç", "Ç");
    ("è", "È"); ("é", "É"); ("ê", "Ê"); ("ë", "Ë"); ("ì", "Ì");
    ("í", "Í"); ("î", "Î"); ("ï", "Ï"); ("ð", "Ð"); ("ñ", "Ñ");
    ("ò", "Ò"); ("ó", "Ó"); ("ô", "Ô"); ("õ", "Õ"); ("ö", "Ö");
    ("ø", "Ø"); ("ù", "Ù"); ("ú", "Ú"); ("û", "Û"); ("ü", "Ü");
    ("ý", "Ý"); ("þ", "Þ"); ("ÿ", "Ÿ"); ("ā", "Ā"); ("ă", "Ă");
    ("ą", "Ą"); ("ć", "Ć"); ("ĉ", "Ĉ"); ("ċ", "Ċ"); ("č", "Č");
    ("ď", "Ď"); ("đ", "Đ"); ("ē", "Ē"); ("ĕ", "Ĕ"); ("ė", "Ė");
    ("ę", "Ę"); ("ě", "Ě"); ("ĝ", "Ĝ"); ("ğ", "Ğ"); ("ġ", "Ġ");
    ("ģ", "Ģ"); ("ĥ", "Ĥ"); ("ħ", "Ħ"); ("ĩ", "Ĩ"); ("ī", "Ī");
    ("ĭ", "Ĭ"); ("į", "Į"); ("ı", "I"); ("ĳ", "Ĳ"); ("ĵ", "Ĵ");
    ("ķ", "Ķ"); ("ĺ", "Ĺ"); ("ļ", "Ļ"); ("ľ", "Ľ"); ("ŀ", "Ŀ");
    ("ł", "Ł"); ("ń", "Ń"); ("ņ", "Ņ"); ("ň", "Ň"); ("ŉ", "ʼN");
    ("ŋ", "Ŋ"); ("ō", "Ō"); ("ŏ", "Ŏ"); ("ő", "Ő"); ("œ", "Œ");
    ("ŕ", "Ŕ"); ("ŗ", "Ŗ"); ("ř", "Ř"); ("ś", "Ś"); ("ŝ", "Ŝ");
    ("ş", "Ş"); ("š", "Š"); ("ţ", "Ţ"); ("ť", "Ť"); ("ŧ", "Ŧ");
    ("ũ", "Ũ"); ("ū", "Ū"); ("ŭ", "Ŭ"); ("ů", "Ů"); ("ű", "Ű");
    ("ų", "Ų"); ("ŵ", "Ŵ"); ("ŷ", "Ŷ"); ("ź", "Ź"); ("ż", "Ż");
    ("ž", "Ž"); ("ſ", "S"); ("ƀ", "Ƀ"); ("ƃ", "Ƃ"); ("ƅ", "Ƅ");
    ("ƈ", "Ƈ"); ("ƌ", "Ƌ"); ("ƒ", "Ƒ"); ("ƕ", "Ƕ"); ("ƙ", "Ƙ");
    ("ƚ", "Ƚ"); ("ƞ", "Ƞ"); ("ơ", "Ơ"); ("ƣ", "Ƣ"); ("ƥ", "Ƥ");
    ("ƨ", "Ƨ"); ("ƭ", "Ƭ"); ("ư", "Ư"); ("ƴ", "Ƴ"); ("ƶ", "Ƶ");
    ("ƹ", "Ƹ"); ("ƽ", "Ƽ"); ("ƿ", "Ƿ"); ("ǅ", "Ǆ"); ("ǆ", "Ǆ");
    ("ǈ", "Ǉ"); ("ǉ", "Ǉ"); ("ǋ", "Ǌ"); ("ǌ", "Ǌ"); ("ǎ", "Ǎ");
    ("ǐ", "Ǐ"); ("ǒ", "Ǒ"); ("ǔ", "Ǔ"); ("ǖ", "Ǖ"); ("ǘ", "Ǘ");
    ("ǚ", "Ǚ"); ("ǜ", "Ǜ"); ("ǝ", "Ǝ"); ("ǟ", "Ǟ"); ("ǡ", "Ǡ");
    ("ǣ", "Ǣ"); ("ǥ", "Ǥ"); ("ǧ", "Ǧ"); ("ǩ", "Ǩ"); ("ǫ", "Ǫ");
    ("ǭ", "Ǭ"); ("ǯ", "Ǯ"); ("ǰ", "J̌"); ("ǲ", "Ǳ"); ("ǳ", "Ǳ");
    ("ǵ", "Ǵ"); ("ǹ", "Ǹ"); ("ǻ", "Ǻ"); ("ǽ", "Ǽ"); ("ǿ", "Ǿ");
    ("ȁ", "Ȁ"); ("ȃ", "Ȃ"); ("ȅ", "Ȅ"); ("ȇ", "Ȇ"); ("ȉ", "Ȉ");
    ("ȋ", "Ȋ"); ("ȍ", "Ȍ"); ("ȏ", "Ȏ"); ("ȑ", "Ȑ"); ("ȓ", "Ȓ");
    ("ȕ", "Ȕ"); ("ȗ", "Ȗ"); ("ș", "Ș"); ("ț", "Ț"); ("ȝ", "Ȝ");
    ("ȟ", "Ȟ"); ("ȣ", "Ȣ"); ("ȥ", "Ȥ"); ("ȧ", "Ȧ"); ("ȩ", "Ȩ");
    ("ȫ", "Ȫ"); ("ȭ", "Ȭ"); ("ȯ", "Ȯ"); ("ȱ", "Ȱ"); ("ȳ", "Ȳ");
    ("ȼ", "Ȼ"); ("ȿ", "Ȿ"); ("ɀ", "Ɀ"); ("ɂ", "Ɂ"); ("ɇ", "Ɇ");
    ("ɉ", "Ɉ"); ("ɋ", "Ɋ"); ("ɍ", "Ɍ"); ("ɏ", "Ɏ"); ("ɐ", "Ɐ");
    ("ɑ", "Ɑ"); ("ɒ", "Ɒ"); ("ɓ", "Ɓ"); ("ɔ", "Ɔ"); ("ɖ", "Ɖ");
    ("ɗ", "Ɗ"); ("ə", "Ə"); ("ɛ", "Ɛ"); ("ɜ", "Ɜ"); ("ɠ", "Ɠ");
    ("ɡ", "Ɡ"); ("ɣ", "Ɣ"); ("ɥ", "Ɥ"); ("ɦ", "Ɦ"); ("ɨ", "Ɨ");
    ("ɩ", "Ɩ"); ("ɪ", "Ɪ"); ("ɫ", "Ɫ"); ("ɬ", "Ɬ"); ("ɯ", "Ɯ");
    ("ɱ", "Ɱ"); ("ɲ", "Ɲ"); ("ɵ", "Ɵ"); ("ɽ", "Ɽ"); ("ʀ", "Ʀ");
    ("ʂ", "Ʂ"); ("ʃ", "Ʃ"); ("ʇ", "Ʇ"); ("ʈ", "Ʈ"); ("ʉ", "Ʉ");
    ("ʊ", "Ʊ"); ("ʋ", "Ʋ"); ("ʌ", "Ʌ"); ("ʒ", "Ʒ"); ("ʝ", "Ʝ");
    ("ʞ", "Ʞ"); ("ͅ", "Ι"); ("ͱ", "Ͱ"); ("ͳ", "Ͳ"); ("ͷ", "Ͷ");
    ("ͻ", "Ͻ"); ("ͼ", "Ͼ"); ("ͽ", "Ͽ"); ("ΐ", "Ϊ́"); ("ά", "Ά");
    ("έ", "Έ"); ("ή", "Ή"); ("ί", "Ί"); ("ΰ", "Ϋ́"); ("α", "Α");
    ("β", "Β"); ("γ", "Γ"); ("δ", "Δ"); ("ε", "Ε"); ("ζ", "Ζ");
    ("η", "Η"); ("θ", "Θ"); ("ι", "Ι"); ("κ", "Κ"); ("λ", "Λ");
    ("μ", "Μ"); ("ν", "Ν"); ("ξ", "Ξ"); ("ο", "Ο"); ("π", "Π");
    ("ρ", "Ρ"); ("ς", "Σ"); ("σ", "Σ"); ("τ", "Τ"); ("υ", "Υ");
    ("φ", "Φ"); ("χ", "Χ"); ("ψ", "Ψ"); ("ω", "Ω"); ("ϊ", "Ϊ");
    ("ϋ", "Ϋ"); ("ό", "Ό"); ("ύ", "Ύ"); ("ώ", "Ώ"); ("ϐ", "Β");
    ("ϑ", "Θ"); ("ϕ", "Φ"); ("ϖ", "Π"); ("ϗ", "Ϗ"); ("ϙ", "Ϙ");
    ("ϛ", "Ϛ"); ("ϝ", "Ϝ"); ("ϟ", "Ϟ"); ("ϡ", "Ϡ"); ("ϣ", "Ϣ");
    ("ϥ", "Ϥ"); ("ϧ", "Ϧ"); ("ϩ", "Ϩ"); ("ϫ", "Ϫ"); ("ϭ", "Ϭ");
    ("ϯ", "Ϯ"); ("ϰ", "Κ"); ("ϱ", "Ρ"); ("ϲ", "Ϲ"); ("ϳ", "Ϳ");
    ("ϵ", "Ε"); ("ϸ", "Ϸ"); ("ϻ", "Ϻ"); ("а", "А"); ("б", "Б");
    ("в", "В"); ("г", "Г"); ("д", "Д"); ("е", "Е"); ("ж", "Ж");
    ("з", "З"); ("и", "И"); ("й", "Й"); ("к", "К"); ("л", "Л");
    ("м", "М"); ("н", "Н"); ("о", "О"); ("п", "П"); ("р", "Р");
    ("с", "С"); ("т", "Т"); ("у", "У"); ("ф", "Ф"); ("х", "Х");
    ("ц", "Ц"); ("ч", "Ч"); ("ш", "Ш"); ("щ", "Щ"); ("ъ", "Ъ");
    ("ы", "Ы"); ("ь", "Ь"); ("э", "Э"); ("ю", "Ю"); ("я", "Я");
    ("ѐ", "Ѐ"); ("ё", "Ё"); ("ђ", "Ђ"); ("ѓ", "Ѓ"); ("є", "Є");
    ("ѕ", "Ѕ"); ("і", "І"); ("ї", "Ї"); ("ј", "Ј"); ("љ", "Љ");
    ("њ", "Њ"); ("ћ", "Ћ"); ("ќ", "Ќ"); ("ѝ", "Ѝ"); ("ў", "Ў");
    ("џ", "Џ"); ("ѡ", "Ѡ"); ("ѣ", "Ѣ"); ("ѥ", "Ѥ"); ("ѧ", "Ѧ");
    ("ѩ", "Ѩ"); ("ѫ", "Ѫ"); ("ѭ", "Ѭ"); ("ѯ", "Ѯ"); ("ѱ", "Ѱ");
    ("ѳ", "Ѳ"); ("ѵ", "Ѵ"); ("ѷ", "Ѷ"); ("ѹ", "Ѹ"); ("ѻ", "Ѻ");
    ("ѽ", "Ѽ"); ("ѿ", "Ѿ"); ("ҁ", "Ҁ"); ("ҋ", "Ҋ"); ("ҍ", "Ҍ");
    ("ҏ", "Ҏ"); ("ґ", "Ґ"); ("ғ", "Ғ"); ("ҕ", "Ҕ"); ("җ", "Җ");
    ("ҙ", "Ҙ"); ("қ", "Қ"); ("ҝ", "Ҝ"); ("ҟ", "Ҟ"); ("ҡ", "Ҡ");
    ("ң", "Ң"); ("ҥ", "Ҥ"); ("ҧ", "Ҧ"); ("ҩ", "Ҩ"); ("ҫ", "Ҫ");
    ("ҭ", "Ҭ"); ("ү", "Ү"); ("ұ", "Ұ"); ("ҳ", "Ҳ"); ("ҵ", "Ҵ");
    ("ҷ", "Ҷ"); ("ҹ", "Ҹ"); ("һ", "Һ"); ("ҽ", "Ҽ"); ("ҿ", "Ҿ");
    ("ӂ", "Ӂ"); ("ӄ", "Ӄ"); ("ӆ", "Ӆ"); ("ӈ", "Ӈ"); ("ӊ", "Ӊ");
    ("ӌ", "Ӌ"); ("ӎ", "Ӎ"); ("ӏ", "Ӏ"); ("ӑ", "Ӑ"); ("ӓ", "Ӓ");
    ("ӕ", "Ӕ"); ("ӗ", "Ӗ"); ("ә", "Ә"); ("ӛ", "Ӛ"); ("ӝ", "Ӝ");
    ("ӟ", "Ӟ"); ("ӡ", "Ӡ"); ("ӣ", "Ӣ"); ("ӥ", "Ӥ"); ("ӧ", "Ӧ");
    ("ө", "Ө"); ("ӫ", "Ӫ"); ("ӭ", "Ӭ"); ("ӯ", "Ӯ"); ("ӱ", "Ӱ");
    ("ӳ", "Ӳ"); ("ӵ", "Ӵ"); ("ӷ", "Ӷ"); ("ӹ", "Ӹ"); ("ӻ", "Ӻ");
    ("ӽ", "Ӽ"); ("ӿ", "Ӿ"); ("ԁ", "Ԁ"); ("ԃ", "Ԃ"); ("ԅ", "Ԅ");
    ("ԇ", "Ԇ"); ("ԉ", "Ԉ"); ("ԋ", "Ԋ"); ("ԍ", "Ԍ"); ("ԏ", "Ԏ");
    ("ԑ", "Ԑ"); ("ԓ", "Ԓ"); ("ԕ", "Ԕ"); ("ԗ", "Ԗ"); ("ԙ", "Ԙ");
    ("ԛ", "Ԛ"); ("ԝ", "Ԝ"); ("ԟ", "Ԟ"); ("ԡ", "Ԡ"); ("ԣ", "Ԣ");
    ("ԥ", "Ԥ"); ("ԧ", "Ԧ"); ("ԩ", "Ԩ"); ("ԫ", "Ԫ"); ("ԭ", "Ԭ");
    ("ԯ", "Ԯ"); ("ա", "Ա"); ("բ", "Բ"); ("գ", "Գ"); ("դ", "Դ");
    ("ե", "Ե"); ("զ", "Զ"); ("է", "Է"); ("ը", "Ը"); ("թ", "Թ");
    ("ժ", "Ժ"); ("ի", "Ի"); ("լ", "Լ"); ("խ", "Խ"); ("ծ", "Ծ");
    ("կ", "Կ"); ("հ", "Հ"); ("ձ", "Ձ"); ("ղ", "Ղ"); ("ճ", "Ճ");
    ("մ", "Մ"); ("յ", "Յ"); ("ն", "Ն"); ("շ", "Շ"); ("ո", "Ո");
    ("չ", "Չ"); ("պ", "Պ"); ("ջ", "Ջ"); ("ռ", "Ռ"); ("ս", "Ս");
    ("վ", "Վ"); ("տ", "Տ"); ("ր", "Ր"); ("ց", "Ց"); ("ւ", "Ւ");
    ("փ", "Փ"); ("ք", "Ք"); ("օ", "Օ"); ("ֆ", "Ֆ"); ("և", "ԵՒ");
    ("ა", "Ა"); ("ბ", "Ბ"); ("გ", "Გ"); ("დ", "Დ"); ("ე", "Ე");
    ("ვ", "Ვ"); ("ზ", "Ზ"); ("თ", "Თ"); ("ი", "Ი"); ("კ", "Კ");
    ("ლ", "Ლ"); ("მ", "Მ"); ("ნ", "Ნ"); ("ო", "Ო"); ("პ", "Პ");
    ("ჟ", "Ჟ"); ("რ", "Რ"); ("ს", "Ს"); ("ტ", "Ტ"); ("უ", "Უ");
    ("ფ", "Ფ"); ("ქ", "Ქ"); ("ღ", "Ღ"); ("ყ", "Ყ"); ("შ", "Შ");
    ("ჩ", "Ჩ"); ("ც", "Ც"); ("ძ", "Ძ"); ("წ", "Წ"); ("ჭ", "Ჭ");
    ("ხ", "Ხ"); ("ჯ", "Ჯ"); ("ჰ", "Ჰ"); ("ჱ", "Ჱ"); ("ჲ", "Ჲ");
    ("ჳ", "Ჳ"); ("ჴ", "Ჴ"); ("ჵ", "Ჵ"); ("ჶ", "Ჶ"); ("ჷ", "Ჷ");
    ("ჸ", "Ჸ"); ("ჹ", "Ჹ"); ("ჺ", "Ჺ"); ("ჽ", "Ჽ"); ("ჾ", "Ჾ");
    ("ჿ", "Ჿ"); ("ᏸ", "Ᏸ"); ("ᏹ", "Ᏹ"); ("ᏺ", "Ᏺ"); ("ᏻ", "Ᏻ");
    ("ᏼ", "Ᏼ"); ("ᏽ", "Ᏽ"); ("ᲀ", "В"); ("ᲁ", "Д"); ("ᲂ", "О");
    ("ᲃ", "С"); ("ᲄ", "Т"); ("ᲅ", "Т"); ("ᲆ", "Ъ"); ("ᲇ", "Ѣ");
    ("ᲈ", "Ꙋ"); ("ᵹ", "Ᵹ"); ("ᵽ", "Ᵽ"); ("ᶎ", "Ᶎ"); ("ḁ", "Ḁ");
    ("ḃ", "Ḃ"); ("ḅ", "Ḅ"); ("ḇ", "Ḇ"); ("ḉ", "Ḉ"); ("ḋ", "Ḋ");
    ("ḍ", "Ḍ"); ("ḏ", "Ḏ"); ("ḑ", "Ḑ"); ("ḓ", "Ḓ"); ("ḕ", "Ḕ");
    ("ḗ", "Ḗ"); ("ḙ", "Ḙ"); ("ḛ", "Ḛ"); ("ḝ", "Ḝ"); ("ḟ", "Ḟ");
    ("ḡ", "Ḡ"); ("ḣ", "Ḣ"); ("ḥ", "Ḥ"); ("ḧ", "Ḧ"); ("ḩ", "Ḩ");
    ("ḫ", "Ḫ"); ("ḭ", "Ḭ"); ("ḯ", "Ḯ"); ("ḱ", "Ḱ"); ("ḳ", "Ḳ");
    ("ḵ", "Ḵ"); ("ḷ", "Ḷ"); ("ḹ", "Ḹ"); ("ḻ", "Ḻ"); ("ḽ", "Ḽ");
    ("ḿ", "Ḿ"); ("ṁ", "Ṁ"); ("ṃ", "Ṃ"); ("ṅ", "Ṅ"); ("ṇ", "Ṇ");
    ("ṉ", "Ṉ"); ("ṋ", "Ṋ"); ("ṍ", "Ṍ"); ("ṏ", "Ṏ"); ("ṑ", "Ṑ");
    ("ṓ", "Ṓ"); ("ṕ", "Ṕ"); ("ṗ", "Ṗ"); ("ṙ", "Ṙ"); ("ṛ", "Ṛ");
    ("ṝ", "Ṝ"); ("ṟ", "Ṟ"); ("ṡ", "Ṡ"); ("ṣ", "Ṣ"); ("ṥ", "Ṥ");
    ("ṧ", "Ṧ"); ("ṩ", "Ṩ"); ("ṫ", "Ṫ"); ("ṭ", "Ṭ"); ("ṯ", "Ṯ");
    ("ṱ", "Ṱ"); ("ṳ", "Ṳ"); ("ṵ", "Ṵ"); ("ṷ", "Ṷ"); ("ṹ", "Ṹ");
    ("ṻ", "Ṻ"); ("ṽ", "Ṽ"); ("ṿ", "Ṿ"); ("ẁ", "Ẁ"); ("ẃ", "Ẃ");
    ("ẅ", "Ẅ"); ("ẇ", "Ẇ"); ("ẉ", "Ẉ"); ("ẋ", "Ẋ"); ("ẍ", "Ẍ");
    ("ẏ", "Ẏ"); ("ẑ", "Ẑ"); ("ẓ", "Ẓ"); ("ẕ", "Ẕ"); ("ẖ", "H̱");
    ("ẗ", "T̈"); ("ẘ", "W̊"); ("ẙ", "Y̊"); ("ẚ", "Aʾ"); ("ẛ", "Ṡ");
    ("ạ", "Ạ"); ("ả", "Ả"); ("ấ", "Ấ"); ("ầ", "Ầ"); ("ẩ", "Ẩ");
    ("ẫ", "Ẫ"); ("ậ", "Ậ"); ("ắ", "Ắ"); ("ằ", "Ằ"); ("ẳ", "Ẳ");
    ("ẵ", "Ẵ"); ("ặ", "Ặ"); ("ẹ", "Ẹ"); ("ẻ", "Ẻ"); ("ẽ", "Ẽ");
    ("ế", "Ế"); ("ề", "Ề"); ("ể", "Ể"); ("ễ", "Ễ"); ("ệ", "Ệ");
    ("ỉ", "Ỉ"); ("ị", "Ị"); ("ọ", "Ọ"); ("ỏ", "Ỏ"); ("ố", "Ố");
    ("ồ", "Ồ"); ("ổ", "Ổ"); ("ỗ", "Ỗ"); ("ộ", "Ộ"); ("ớ", "Ớ");
    ("ờ", "Ờ"); ("ở", "Ở"); ("ỡ", "Ỡ"); ("ợ", "Ợ"); ("ụ", "Ụ");
    ("ủ", "Ủ"); ("ứ", "Ứ"); ("ừ", "Ừ"); ("ử", "Ử"); ("ữ", "Ữ");
    ("ự", "Ự"); ("ỳ", "Ỳ"); ("ỵ", "Ỵ"); ("ỷ", "Ỷ"); ("ỹ", "Ỹ");
    ("ỻ", "Ỻ"); ("ỽ", "Ỽ"); ("ỿ", "Ỿ"); ("ἀ", "Ἀ"); ("ἁ", "Ἁ");
    ("ἂ", "Ἂ"); ("ἃ", "Ἃ"); ("ἄ", "Ἄ"); ("ἅ", "Ἅ"); ("ἆ", "Ἆ");
    ("ἇ", "Ἇ"); ("ἐ", "Ἐ"); ("ἑ", "Ἑ"); ("ἒ", "Ἒ"); ("ἓ", "Ἓ");
    ("ἔ", "Ἔ"); ("ἕ", "Ἕ"); ("ἠ", "Ἠ"); ("ἡ", "Ἡ"); ("ἢ", "Ἢ");
    ("ἣ", "Ἣ"); ("ἤ", "Ἤ"); ("ἥ", "Ἥ"); ("ἦ", "Ἦ"); ("ἧ", "Ἧ");
    ("ἰ", "Ἰ"); ("ἱ", "Ἱ"); ("ἲ", "Ἲ"); ("ἳ", "Ἳ"); ("ἴ", "Ἴ");
    ("ἵ", "Ἵ"); ("ἶ", "Ἶ"); ("ἷ", "Ἷ"); ("ὀ", "Ὀ"); ("ὁ", "Ὁ");
    ("ὂ", "Ὂ"); ("ὃ", "Ὃ"); ("ὄ", "Ὄ"); ("ὅ", "Ὅ"); ("ὐ", "Υ̓");
    ("ὑ", "Ὑ"); ("ὒ", "Υ̓̀"); ("ὓ", "Ὓ"); ("ὔ", "Υ̓́"); ("ὕ", "Ὕ");
    ("ὖ", "Υ̓͂"); ("ὗ", "Ὗ"); ("ὠ", "Ὠ"); ("ὡ", "Ὡ"); ("ὢ", "Ὢ");
    ("ὣ", "Ὣ"); ("ὤ", "Ὤ"); ("ὥ", "Ὥ"); ("ὦ", "Ὦ"); ("ὧ", "Ὧ");
    ("ὰ", "Ὰ"); ("ά", "Ά"); ("ὲ", "Ὲ"); ("έ", "Έ"); ("ὴ", "Ὴ");
    ("ή", "Ή"); ("ὶ", "Ὶ"); ("ί", "Ί"); ("ὸ", "Ὸ"); ("ό", "Ό");
    ("ὺ", "Ὺ"); ("ύ", "Ύ"); ("ὼ", "Ὼ"); ("ώ", "Ώ"); ("ᾀ", "ἈΙ");
    ("ᾁ", "ἉΙ"); ("ᾂ", "ἊΙ"); ("ᾃ", "ἋΙ"); ("ᾄ", "ἌΙ"); ("ᾅ", "ἍΙ");
    ("ᾆ", "ἎΙ"); ("ᾇ", "ἏΙ"); ("ᾈ", "ἈΙ"); ("ᾉ", "ἉΙ"); ("ᾊ", "ἊΙ");
    ("ᾋ", "ἋΙ"); ("ᾌ", "ἌΙ"); ("ᾍ", "ἍΙ"); ("ᾎ", "ἎΙ"); ("ᾏ", "ἏΙ");
    ("ᾐ", "ἨΙ"); ("ᾑ", "ἩΙ"); ("ᾒ", "ἪΙ"); ("ᾓ", "ἫΙ"); ("ᾔ", "ἬΙ");
    ("ᾕ", "ἭΙ"); ("ᾖ", "ἮΙ"); ("ᾗ", "ἯΙ"); ("ᾘ", "ἨΙ"); ("ᾙ", "ἩΙ");
    ("ᾚ", "ἪΙ"); ("ᾛ", "ἫΙ"); ("ᾜ", "ἬΙ"); ("ᾝ", "ἭΙ"); ("ᾞ", "ἮΙ");
    ("ᾟ", "ἯΙ"); ("ᾠ", "ὨΙ"); ("ᾡ", "ὩΙ"); ("ᾢ", "ὪΙ"); ("ᾣ", "ὫΙ");
    ("ᾤ", "ὬΙ"); ("ᾥ", "ὭΙ"); ("ᾦ", "ὮΙ"); ("ᾧ", "ὯΙ"); ("ᾨ", "ὨΙ");
    ("ᾩ", "ὩΙ"); ("ᾪ", "ὪΙ"); ("ᾫ", "ὫΙ"); ("ᾬ", "ὬΙ"); ("ᾭ", "ὭΙ");
    ("ᾮ", "ὮΙ"); ("ᾯ", "ὯΙ"); ("ᾰ", "Ᾰ"); ("ᾱ", "Ᾱ"); ("ᾲ", "ᾺΙ");
    ("ᾳ", "ΑΙ"); ("ᾴ", "ΆΙ"); ("ᾶ", "Α͂"); ("ᾷ", "Α͂Ι"); ("ᾼ", "ΑΙ");
    ("ι", "Ι"); ("ῂ", "ῊΙ"); ("ῃ", "ΗΙ"); ("ῄ", "ΉΙ"); ("ῆ", "Η͂");
    ("ῇ", "Η͂Ι"); ("ῌ", "ΗΙ"); ("ῐ", "Ῐ"); ("ῑ", "Ῑ"); ("ῒ", "Ϊ̀");
    ("ΐ", "Ϊ́"); ("ῖ", "Ι͂"); ("ῗ", "Ϊ͂"); ("ῠ", "Ῠ"); ("ῡ", "Ῡ");
    ("ῢ", "Ϋ̀"); ("ΰ", "Ϋ́"); ("ῤ", "Ρ̓"); ("ῥ", "Ῥ"); ("ῦ", "Υ͂");
    ("ῧ", "Ϋ͂"); ("ῲ", "ῺΙ"); ("ῳ", "ΩΙ"); ("ῴ", "ΏΙ"); ("ῶ", "Ω͂");
    ("ῷ", "Ω͂Ι"); ("ῼ", "ΩΙ"); ("ⅎ", "Ⅎ"); ("ⅰ", "Ⅰ"); ("ⅱ", "Ⅱ");
    ("ⅲ", "Ⅲ"); ("ⅳ", "Ⅳ"); ("ⅴ", "Ⅴ"); ("ⅵ", "Ⅵ"); ("ⅶ", "Ⅶ");
    ("ⅷ", "Ⅷ"); ("ⅸ", "Ⅸ"); ("ⅹ", "Ⅹ"); ("ⅺ", "Ⅺ"); ("ⅻ", "Ⅻ");
    ("ⅼ", "Ⅼ"); ("ⅽ", "Ⅽ"); ("ⅾ", "Ⅾ"); ("ⅿ", "Ⅿ"); ("ↄ", "Ↄ");
    ("ⓐ", "Ⓐ"); ("ⓑ", "Ⓑ"); ("ⓒ", "Ⓒ"); ("ⓓ", "Ⓓ"); ("ⓔ", "Ⓔ");
    ("ⓕ", "Ⓕ"); ("ⓖ", "Ⓖ"); ("ⓗ", "Ⓗ"); ("ⓘ", "Ⓘ"); ("ⓙ", "Ⓙ");
    ("ⓚ", "Ⓚ"); ("ⓛ", "Ⓛ"); ("ⓜ", "Ⓜ"); ("ⓝ", "Ⓝ"); ("ⓞ", "Ⓞ");
    ("ⓟ", "Ⓟ"); ("ⓠ", "Ⓠ"); ("ⓡ", "Ⓡ"); ("ⓢ", "Ⓢ"); ("ⓣ", "Ⓣ");
    ("ⓤ", "Ⓤ"); ("ⓥ", "Ⓥ"); ("ⓦ", "Ⓦ"); ("ⓧ", "Ⓧ"); ("ⓨ", "Ⓨ");
    ("ⓩ", "Ⓩ"); ("ⰰ", "Ⰰ"); ("ⰱ", "Ⰱ"); ("ⰲ", "Ⰲ"); ("ⰳ", "Ⰳ");
    ("ⰴ", "Ⰴ"); ("ⰵ", "Ⰵ"); ("ⰶ", "Ⰶ"); ("ⰷ", "Ⰷ"); ("ⰸ", "Ⰸ");
    ("ⰹ", "Ⰹ"); ("ⰺ", "Ⰺ"); ("ⰻ", "Ⰻ"); ("ⰼ", "Ⰼ"); ("ⰽ", "Ⰽ");
    ("ⰾ", "Ⰾ"); ("ⰿ", "Ⰿ"); ("ⱀ", "Ⱀ"); ("ⱁ", "Ⱁ"); ("ⱂ", "Ⱂ");
    ("ⱃ", "Ⱃ"); ("ⱄ", "Ⱄ"); ("ⱅ", "Ⱅ"); ("ⱆ", "Ⱆ"); ("ⱇ", "Ⱇ");
    ("ⱈ", "Ⱈ"); ("ⱉ", "Ⱉ"); ("ⱊ", "Ⱊ"); ("ⱋ", "Ⱋ"); ("ⱌ", "Ⱌ");
    ("ⱍ", "Ⱍ"); ("ⱎ", "Ⱎ"); ("ⱏ", "Ⱏ"); ("ⱐ", "Ⱐ"); ("ⱑ", "Ⱑ");
    ("ⱒ", "Ⱒ"); ("ⱓ", "Ⱓ"); ("ⱔ", "Ⱔ"); ("ⱕ", "Ⱕ"); ("ⱖ", "Ⱖ");
    ("ⱗ", "Ⱗ"); ("ⱘ", "Ⱘ"); ("ⱙ", "Ⱙ"); ("ⱚ", "Ⱚ"); ("ⱛ", "Ⱛ");
    ("ⱜ", "Ⱜ"); ("ⱝ", "Ⱝ"); ("ⱞ", "Ⱞ"); ("ⱟ", "Ⱟ"); ("ⱡ", "Ⱡ");
    ("ⱥ", "Ⱥ"); ("ⱦ", "Ⱦ"); ("ⱨ", "Ⱨ"); ("ⱪ", "Ⱪ"); ("ⱬ", "Ⱬ");
    ("ⱳ", "Ⱳ"); ("ⱶ", "Ⱶ"); ("ⲁ", "Ⲁ"); ("ⲃ", "Ⲃ"); ("ⲅ", "Ⲅ");
    ("ⲇ", "Ⲇ"); ("ⲉ", "Ⲉ"); ("ⲋ", "Ⲋ"); ("ⲍ", "Ⲍ"); ("ⲏ", "Ⲏ");
    ("ⲑ", "Ⲑ"); ("ⲓ", "Ⲓ"); ("ⲕ", "Ⲕ"); ("ⲗ", "Ⲗ"); ("ⲙ", "Ⲙ");
    ("ⲛ", "Ⲛ"); ("ⲝ", "Ⲝ"); ("ⲟ", "Ⲟ"); ("ⲡ", "Ⲡ"); ("ⲣ", "Ⲣ");
    ("ⲥ", "Ⲥ"); ("ⲧ", "Ⲧ"); ("ⲩ", "Ⲩ"); ("ⲫ", "Ⲫ"); ("ⲭ", "Ⲭ");
    ("ⲯ", "Ⲯ"); ("ⲱ", "Ⲱ"); ("ⲳ", "Ⲳ"); ("ⲵ", "Ⲵ"); ("ⲷ", "Ⲷ");
    ("ⲹ", "Ⲹ"); ("ⲻ", "Ⲻ"); ("ⲽ", "Ⲽ"); ("ⲿ", "Ⲿ"); ("ⳁ", "Ⳁ");
    ("ⳃ", "Ⳃ"); ("ⳅ", "Ⳅ"); ("ⳇ", "Ⳇ"); ("ⳉ", "Ⳉ"); ("ⳋ", "Ⳋ");
    ("ⳍ", "Ⳍ"); ("ⳏ", "Ⳏ"); ("ⳑ", "Ⳑ"); ("ⳓ", "Ⳓ"); ("ⳕ", "Ⳕ");
    ("ⳗ", "Ⳗ"); ("ⳙ", "Ⳙ"); ("ⳛ", "Ⳛ"); ("ⳝ", "Ⳝ"); ("ⳟ", "Ⳟ");
    ("ⳡ", "Ⳡ"); ("ⳣ", "Ⳣ"); ("ⳬ", "Ⳬ"); ("ⳮ", "Ⳮ"); ("ⳳ", "Ⳳ");
    ("ⴀ", "Ⴀ"); ("ⴁ", "Ⴁ"); ("ⴂ", "Ⴂ"); ("ⴃ", "Ⴃ"); ("ⴄ", "Ⴄ");
    ("ⴅ", "Ⴅ"); ("ⴆ", "Ⴆ"); ("ⴇ", "Ⴇ"); ("ⴈ", "Ⴈ"); ("ⴉ", "Ⴉ");
    ("ⴊ", "Ⴊ"); ("ⴋ", "Ⴋ"); ("ⴌ", "Ⴌ"); ("ⴍ", "Ⴍ"); ("ⴎ", "Ⴎ");
    ("ⴏ", "Ⴏ"); ("ⴐ", "Ⴐ"); ("ⴑ", "Ⴑ"); ("ⴒ", "Ⴒ"); ("ⴓ", "Ⴓ");
    ("ⴔ", "Ⴔ"); ("ⴕ", "Ⴕ"); ("ⴖ", "Ⴖ"); ("ⴗ", "Ⴗ"); ("ⴘ", "Ⴘ");
    ("ⴙ", "Ⴙ"); ("ⴚ", "Ⴚ"); ("ⴛ", "Ⴛ"); ("ⴜ", "Ⴜ"); ("ⴝ", "Ⴝ");
    ("ⴞ", "Ⴞ"); ("ⴟ", "Ⴟ"); ("ⴠ", "Ⴠ"); ("ⴡ", "Ⴡ"); ("ⴢ", "Ⴢ");
    ("ⴣ", "Ⴣ"); ("ⴤ", "Ⴤ"); ("ⴥ", "Ⴥ"); ("ⴧ", "Ⴧ"); ("ⴭ", "Ⴭ");
    ("ꙁ", "Ꙁ"); ("ꙃ", "Ꙃ"); ("ꙅ", "Ꙅ"); ("ꙇ", "Ꙇ"); ("ꙉ", "Ꙉ");
    ("ꙋ", "Ꙋ"); ("ꙍ", "Ꙍ"); ("ꙏ", "Ꙏ"); ("ꙑ", "Ꙑ"); ("ꙓ", "Ꙓ");
    ("ꙕ", "Ꙕ"); ("ꙗ", "Ꙗ"); ("ꙙ", "Ꙙ"); ("ꙛ", "Ꙛ"); ("ꙝ", "Ꙝ");
    ("ꙟ", "Ꙟ"); ("ꙡ", "Ꙡ"); ("ꙣ", "Ꙣ"); ("ꙥ", "Ꙥ"); ("ꙧ", "Ꙧ");
    ("ꙩ", "Ꙩ"); ("ꙫ", "Ꙫ"); ("ꙭ", "Ꙭ"); ("ꚁ", "Ꚁ"); ("ꚃ", "Ꚃ");
    ("ꚅ", "Ꚅ"); ("ꚇ", "Ꚇ"); ("ꚉ", "Ꚉ"); ("ꚋ", "Ꚋ"); ("ꚍ", "Ꚍ");
    ("ꚏ", "Ꚏ"); ("ꚑ", "Ꚑ"); ("ꚓ", "Ꚓ"); ("ꚕ", "Ꚕ"); ("ꚗ", "Ꚗ");
    ("ꚙ", "Ꚙ"); ("ꚛ", "Ꚛ"); ("ꜣ", "Ꜣ"); ("ꜥ", "Ꜥ"); ("ꜧ", "Ꜧ");
    ("ꜩ", "Ꜩ"); ("ꜫ", "Ꜫ"); ("ꜭ", "Ꜭ"); ("ꜯ", "Ꜯ"); ("ꜳ", "Ꜳ");
    ("ꜵ", "Ꜵ"); ("ꜷ", "Ꜷ"); ("ꜹ", "Ꜹ"); ("ꜻ", "Ꜻ"); ("ꜽ", "Ꜽ");
    ("ꜿ", "Ꜿ"); ("ꝁ", "Ꝁ"); ("ꝃ", "Ꝃ"); ("ꝅ", "Ꝅ"); ("ꝇ", "Ꝇ");
    ("ꝉ", "Ꝉ"); ("ꝋ", "Ꝋ"); ("ꝍ", "Ꝍ"); ("ꝏ", "Ꝏ"); ("ꝑ", "Ꝑ");
    ("ꝓ", "Ꝓ"); ("ꝕ", "Ꝕ"); ("ꝗ", "Ꝗ"); ("ꝙ", "Ꝙ"); ("ꝛ", "Ꝛ");
    ("ꝝ", "Ꝝ"); ("ꝟ", "Ꝟ"); ("ꝡ", "Ꝡ"); ("ꝣ", "Ꝣ"); ("ꝥ", "Ꝥ");
    ("ꝧ", "Ꝧ"); ("ꝩ", "Ꝩ"); ("ꝫ", "Ꝫ"); ("ꝭ", "Ꝭ"); ("ꝯ", "Ꝯ");
    ("ꝺ", "Ꝺ"); ("ꝼ", "Ꝼ"); ("ꝿ", "Ꝿ"); ("ꞁ", "Ꞁ"); ("ꞃ", "Ꞃ");
    ("ꞅ", "Ꞅ"); ("ꞇ", "Ꞇ"); ("ꞌ", "Ꞌ"); ("ꞑ", "Ꞑ"); ("ꞓ", "Ꞓ");
    ("ꞔ", "Ꞔ"); ("ꞗ", "Ꞗ"); ("ꞙ", "Ꞙ"); ("ꞛ", "Ꞛ"); ("ꞝ", "Ꞝ");
    ("ꞟ", "Ꞟ"); ("ꞡ", "Ꞡ"); ("ꞣ", "Ꞣ"); ("ꞥ", "Ꞥ"); ("ꞧ", "Ꞧ");
    ("ꞩ", "Ꞩ"); ("ꞵ", "Ꞵ"); ("ꞷ", "Ꞷ"); ("ꞹ", "Ꞹ"); ("ꞻ", "Ꞻ");
    ("ꞽ", "Ꞽ"); ("ꞿ", "Ꞿ"); ("ꟁ", "Ꟁ"); ("ꟃ", "Ꟃ"); ("ꟈ", "Ꟈ");
    ("ꟊ", "Ꟊ"); ("ꟑ", "Ꟑ"); ("ꟗ", "Ꟗ"); ("ꟙ", "Ꟙ"); ("ꟶ", "Ꟶ");
    ("ꭓ", "Ꭓ"); ("ꭰ", "Ꭰ"); ("ꭱ", "Ꭱ"); ("ꭲ", "Ꭲ"); ("ꭳ", "Ꭳ");
    ("ꭴ", "Ꭴ"); ("ꭵ", "Ꭵ"); ("ꭶ", "Ꭶ"); ("ꭷ", "Ꭷ"); ("ꭸ", "Ꭸ");
    ("ꭹ", "Ꭹ"); ("ꭺ", "Ꭺ"); ("ꭻ", "Ꭻ"); ("ꭼ", "Ꭼ"); ("ꭽ", "Ꭽ");
    ("ꭾ", "Ꭾ"); ("ꭿ", "Ꭿ"); ("ꮀ", "Ꮀ"); ("ꮁ", "Ꮁ"); ("ꮂ", "Ꮂ");
    ("ꮃ", "Ꮃ"); ("ꮄ", "Ꮄ"); ("ꮅ", "Ꮅ"); ("ꮆ", "Ꮆ"); ("ꮇ", "Ꮇ");
    ("ꮈ", "Ꮈ"); ("ꮉ", "Ꮉ"); ("ꮊ", "Ꮊ"); ("ꮋ", "Ꮋ"); ("ꮌ", "Ꮌ");
    ("ꮍ", "Ꮍ"); ("ꮎ", "Ꮎ"); ("ꮏ", "Ꮏ"); ("ꮐ", "Ꮐ"); ("ꮑ", "Ꮑ");
    ("ꮒ", "Ꮒ"); ("ꮓ", "Ꮓ"); ("ꮔ", "Ꮔ"); ("ꮕ", "Ꮕ"); ("ꮖ", "Ꮖ");
    ("ꮗ", "Ꮗ"); ("ꮘ", "Ꮘ"); ("ꮙ", "Ꮙ"); ("ꮚ", "Ꮚ"); ("ꮛ", "Ꮛ");
    ("ꮜ", "Ꮜ"); ("ꮝ", "Ꮝ"); ("ꮞ", "Ꮞ"); ("ꮟ", "Ꮟ"); ("ꮠ", "Ꮠ");
    ("ꮡ", "Ꮡ"); ("ꮢ", "Ꮢ"); ("ꮣ", "Ꮣ"); ("ꮤ", "Ꮤ"); ("ꮥ", "Ꮥ");
    ("ꮦ", "Ꮦ"); ("ꮧ", "Ꮧ"); ("ꮨ", "Ꮨ"); ("ꮩ", "Ꮩ"); ("ꮪ", "Ꮪ");
    ("ꮫ", "Ꮫ"); ("ꮬ", "Ꮬ"); ("ꮭ", "Ꮭ"); ("ꮮ", "Ꮮ"); ("ꮯ", "Ꮯ");
    ("ꮰ", "Ꮰ"); ("ꮱ", "Ꮱ"); ("ꮲ", "Ꮲ"); ("ꮳ", "Ꮳ"); ("ꮴ", "Ꮴ");
    ("ꮵ", "Ꮵ"); ("ꮶ", "Ꮶ"); ("ꮷ", "Ꮷ"); ("ꮸ", "Ꮸ"); ("ꮹ", "Ꮹ");
    ("ꮺ", "Ꮺ"); ("ꮻ", "Ꮻ"); ("ꮼ", "Ꮼ"); ("ꮽ", "Ꮽ"); ("ꮾ", "Ꮾ");
    ("ꮿ", "Ꮿ"); ("ﬀ", "FF"); ("ﬁ", "FI"); ("ﬂ", "FL"); ("ﬃ", "FFI");
    ("ﬄ", "FFL"); ("ﬅ", "ST"); ("ﬆ", "ST"); ("ﬓ", "ՄՆ"); ("ﬔ", "ՄԵ");
    ("ﬕ", "ՄԻ"); ("ﬖ", "ՎՆ"); ("ﬗ", "ՄԽ"); ("ａ", "Ａ"); ("ｂ", "Ｂ");
    ("ｃ", "Ｃ"); ("ｄ", "Ｄ"); ("ｅ", "Ｅ"); ("ｆ", "Ｆ"); ("ｇ", "Ｇ");
    ("ｈ", "Ｈ"); ("ｉ", "Ｉ"); ("ｊ", "Ｊ"); ("ｋ", "Ｋ"); ("ｌ", "Ｌ");
    ("ｍ", "Ｍ"); ("ｎ", "Ｎ"); ("ｏ", "Ｏ"); ("ｐ", "Ｐ"); ("ｑ", "Ｑ");
    ("ｒ", "Ｒ"); ("ｓ", "Ｓ"); ("ｔ", "Ｔ"); ("ｕ", "Ｕ"); ("ｖ", "Ｖ");
    ("ｗ", "Ｗ"); ("ｘ", "Ｘ"); ("ｙ", "Ｙ"); ("ｚ", "Ｚ"); ("𐐨", "𐐀");
    ("𐐩", "𐐁"); ("𐐪", "𐐂"); ("𐐫", "𐐃"); ("𐐬", "𐐄"); ("𐐭", "𐐅");
    ("𐐮", "𐐆"); ("𐐯", "𐐇"); ("𐐰", "𐐈"); ("𐐱", "𐐉"); ("𐐲", "𐐊");
    ("𐐳", "𐐋"); ("𐐴", "𐐌"); ("𐐵", "𐐍"); ("𐐶", "𐐎"); ("𐐷", "𐐏");
    ("𐐸", "𐐐"); ("𐐹", "𐐑"); ("𐐺", "𐐒"); ("𐐻", "𐐓"); ("𐐼", "𐐔");
    ("𐐽", "𐐕"); ("𐐾", "𐐖"); ("𐐿", "𐐗"); ("𐑀", "𐐘"); ("𐑁", "𐐙");
    ("𐑂", "𐐚"); ("𐑃", "𐐛"); ("𐑄", "𐐜"); ("𐑅", "𐐝"); ("𐑆", "𐐞");
    ("𐑇", "𐐟"); ("𐑈", "𐐠"); ("𐑉", "𐐡"); ("𐑊", "𐐢"); ("𐑋", "𐐣");
    ("𐑌", "𐐤"); ("𐑍", "𐐥"); ("𐑎", "𐐦"); ("𐑏", "𐐧"); ("𐓘", "𐒰");
    ("𐓙", "𐒱"); ("𐓚", "𐒲"); ("𐓛", "𐒳"); ("𐓜", "𐒴"); ("𐓝", "𐒵");
    ("𐓞", "𐒶"); ("𐓟", "𐒷"); ("𐓠", "𐒸"); ("𐓡", "𐒹"); ("𐓢", "𐒺");
    ("𐓣", "𐒻"); ("𐓤", "𐒼"); ("𐓥", "𐒽"); ("𐓦", "𐒾"); ("𐓧", "𐒿");
    ("𐓨", "𐓀"); ("𐓩", "𐓁"); ("𐓪", "𐓂"); ("𐓫", "𐓃"); ("𐓬", "𐓄");
    ("𐓭", "𐓅"); ("𐓮", "𐓆"); ("𐓯", "𐓇"); ("𐓰", "𐓈"); ("𐓱", "𐓉");
    ("𐓲", "𐓊"); ("𐓳", "𐓋"); ("𐓴", "𐓌"); ("𐓵", "𐓍"); ("𐓶", "𐓎");
    ("𐓷", "𐓏"); ("𐓸", "𐓐"); ("𐓹", "𐓑"); ("𐓺", "𐓒"); ("𐓻", "𐓓");
    ("𐖗", "𐕰"); ("𐖘", "𐕱"); ("𐖙", "𐕲"); ("𐖚", "𐕳"); ("𐖛", "𐕴");
    ("𐖜", "𐕵"); ("𐖝", "𐕶"); ("𐖞", "𐕷"); ("𐖟", "𐕸"); ("𐖠", "𐕹");
    ("𐖡", "𐕺"); ("𐖣", "𐕼"); ("𐖤", "𐕽"); ("𐖥", "𐕾"); ("𐖦", "𐕿");
    ("𐖧", "𐖀"); ("𐖨", "𐖁"); ("𐖩", "𐖂"); ("𐖪", "𐖃"); ("𐖫", "𐖄");
    ("𐖬", "𐖅"); ("𐖭", "𐖆"); ("𐖮", "𐖇"); ("𐖯", "𐖈"); ("𐖰", "𐖉");
    ("𐖱", "𐖊"); ("𐖳", "𐖌"); ("𐖴", "𐖍"); ("𐖵", "𐖎"); ("𐖶", "𐖏");
    ("𐖷", "𐖐"); ("𐖸", "𐖑"); ("𐖹", "𐖒"); ("𐖻", "𐖔"); ("𐖼", "𐖕");
    ("𐳀", "𐲀"); ("𐳁", "𐲁"); ("𐳂", "𐲂"); ("𐳃", "𐲃"); ("𐳄", "𐲄");
    ("𐳅", "𐲅"); ("𐳆", "𐲆"); ("𐳇", "𐲇"); ("𐳈", "𐲈"); ("𐳉", "𐲉");
    ("𐳊", "𐲊"); ("𐳋", "𐲋"); ("𐳌", "𐲌"); ("𐳍", "𐲍"); ("𐳎", "𐲎");
    ("𐳏", "𐲏"); ("𐳐", "𐲐"); ("𐳑", "𐲑"); ("𐳒", "𐲒"); ("𐳓", "𐲓");
    ("𐳔", "𐲔"); ("𐳕", "𐲕"); ("𐳖", "𐲖"); ("𐳗", "𐲗"); ("𐳘", "𐲘");
    ("𐳙", "𐲙"); ("𐳚", "𐲚"); ("𐳛", "𐲛"); ("𐳜", "𐲜"); ("𐳝", "𐲝");
    ("𐳞", "𐲞"); ("𐳟", "𐲟"); ("𐳠", "𐲠"); ("𐳡", "𐲡"); ("𐳢", "𐲢");
    ("𐳣", "𐲣"); ("𐳤", "𐲤"); ("𐳥", "𐲥"); ("𐳦", "𐲦"); ("𐳧", "𐲧");
    ("𐳨", "𐲨"); ("𐳩", "𐲩"); ("𐳪", "𐲪"); ("𐳫", "𐲫"); ("𐳬", "𐲬");
    ("𐳭", "𐲭"); ("𐳮", "𐲮"); ("𐳯", "𐲯"); ("𐳰", "𐲰"); ("𐳱", "𐲱");
    ("𐳲", "𐲲"); ("𑣀", "𑢠"); ("𑣁", "𑢡"); ("𑣂", "𑢢"); ("𑣃", "𑢣");
    ("𑣄", "𑢤"); ("𑣅", "𑢥"); ("𑣆", "𑢦"); ("𑣇", "𑢧"); ("𑣈", "𑢨");
    ("𑣉", "𑢩"); ("𑣊", "𑢪"); ("𑣋", "𑢫"); ("𑣌", "𑢬"); ("𑣍", "𑢭");
    ("𑣎", "𑢮"); ("𑣏", "𑢯"); ("𑣐", "𑢰"); ("𑣑", "𑢱"); ("𑣒", "𑢲");
    ("𑣓", "𑢳"); ("𑣔", "𑢴"); ("𑣕", "𑢵"); ("𑣖", "𑢶"); ("𑣗", "𑢷");
    ("𑣘", "𑢸"); ("𑣙", "𑢹"); ("𑣚", "𑢺"); ("𑣛", "𑢻"); ("𑣜", "𑢼");
    ("𑣝", "𑢽"); ("𑣞", "𑢾"); ("𑣟", "𑢿"); ("𖹠", "𖹀"); ("𖹡", "𖹁");
    ("𖹢", "𖹂"); ("𖹣", "𖹃"); ("𖹤", "𖹄"); ("𖹥", "𖹅"); ("𖹦", "𖹆");
    ("𖹧", "𖹇"); ("𖹨", "𖹈"); ("𖹩", "𖹉"); ("𖹪", "𖹊"); ("𖹫", "𖹋");
    ("𖹬", "𖹌"); ("𖹭", "𖹍"); ("𖹮", "𖹎"); ("𖹯", "𖹏"); ("𖹰", "𖹐");
    ("𖹱", "𖹑"); ("𖹲", "𖹒"); ("𖹳", "𖹓"); ("𖹴", "𖹔"); ("𖹵", "𖹕");
    ("𖹶", "𖹖"); ("𖹷", "𖹗"); ("𖹸", "𖹘"); ("𖹹", "𖹙"); ("𖹺", "𖹚");
    ("𖹻", "𖹛"); ("𖹼", "𖹜"); ("𖹽", "𖹝"); ("𖹾", "𖹞"); ("𖹿", "𖹟");
    ("𞤢", "𞤀"); ("𞤣", "𞤁"); ("𞤤", "𞤂"); ("𞤥", "𞤃"); ("𞤦", "𞤄");
    ("𞤧", "𞤅"); ("𞤨", "𞤆"); ("𞤩", "𞤇"); ("𞤪", "𞤈"); ("𞤫", "𞤉");
    ("𞤬", "𞤊"); ("𞤭", "𞤋"); ("𞤮", "𞤌"); ("𞤯", "𞤍"); ("𞤰", "𞤎");
    ("𞤱", "𞤏"); ("𞤲", "𞤐"); ("𞤳", "𞤑"); ("𞤴", "𞤒"); ("𞤵", "𞤓");
    ("𞤶", "𞤔"); ("𞤷", "𞤕"); ("𞤸", "𞤖"); ("𞤹", "𞤗"); ("𞤺", "𞤘");
    ("𞤻", "𞤙"); ("𞤼", "𞤚"); ("𞤽", "𞤛"); ("𞤾", "𞤜"); ("𞤿", "𞤝");
    ("𞥀", "𞤞"); ("𞥁", "𞤟"); ("𞥂", "𞤠"); ("𞥃", "𞤡") ].

(** [ch.upper()] for one character. *)
Definition upper_char (ch : string) : string :=
  match ch with
  | String c EmptyString => String (upper_ascii c) EmptyString
  | _ =>
      match find (fun form => String.eqb (fst form) ch) upper_forms with
      | Some form => snd form
      | None => ch
      end
  end.

(** [s.upper()]: the upper-case forms of the characters of [s], one after
    the other. *)
Definition upper (s : string) : string :=
  fold_right String.append "" (map upper_char (str_chars s)).

(** [s.isascii()] *)
Fixpoint isascii (s : string) : bool :=
  match s with
  | EmptyString => true
  | String c rest => (N_of_ascii c <? 128)%N && isascii rest
  end.

(** [for alert in v]: the items a loop over [v] visits; [None] where the
    object is not iterable. *)
Definition py_iter (v : json) : option (list json) :=
  match v with
  | JArr l => Some l
  | JStr s => Some (map JStr (str_chars s))
  | JObj d => Some (map (fun kv => JStr (fst kv)) d)
  | _ => None
  end.

(** [seq[i]]; [None] where Python raises [IndexError]. *)
Definition py_getitem {A : Type} (l : list A) (i : Z) : option A :=
  let n := Z.of_nat (List.length l) in
  if (0 <=? i) && (i <? n) then nth_error l (Z.to_nat i)
  else if (- n <=? i) && (i <? 0) then nth_error l (Z.to_nat (n + i))
  else None.

(** Whether [format(v, ".<d>f")] returns; an [int] is converted to a float
    first, which overflows from [2^1024 - 2^970] on. *)
Definition fixed_ok (v : json) : bool :=
  match v with
  | JBool _ => true
  | JInt z => Z.abs z <? 2 ^ 1024 - 2 ^ 970
  | JFloat _ => true
  | _ => false
  end.

(** ** The [random] module *)

(** A generator with state [G]: [Random._randbelow(n)], which returns an
    integer of [[0, n)], and [Random.random()]. *)
Class PyRandom (G : Type) : Type := {
  randbelow : Z -> G -> Z * G;
  random : G -> float * G;
  randbelow_range : forall n g, 0 < n -> 0 <= fst (randbelow n g) < n
}.

(** ** Data of the script *)

(** A row of [st.session_state.history]. *)
Record Row : Type := {
  Time : string;
  Throughput : json;
  ErrorRate : json
}.

Definition DataFrame := list Row.

(** [df.tail(n)] *)
Definition tail (n : nat) (df : DataFrame) : DataFrame :=
  skipn (List.length df - n) df.

(** [st.session_state]: the key [history] is absent in a new session. *)
Record SessionState : Type := {
  history : option DataFrame
}.

Definition new_session : SessionState := {| history := None |}.

(** The history buffer a session holds; a new session holds no record. *)
Definition buffer (ss : SessionState) : DataFrame :=
  match history ss with
  | Some df => df
  | None => []
  end.

(** The synthetic log of the burst generator. *)
Record LogRecord : Type := {
  timestamp : string;
  user_id : string;
  latency_ms : Z;
  tokens_used : Z;
  is_error : bool
}.

Inductive Request : Type :=
| Get (url : string) (timeout : Z)
| Post (url : string) (body : LogRecord) (timeout : Z).

(** What [requests.get] and [response.json()] can give: the request raises,
    or a response arrives whose body does or does not parse as JSON. *)
Inductive Response : Type :=
| ConnectionFailed
| HttpReply (status : Z) (body : option json).

(** Text of a metric card; how numbers are printed is left to [str] and
    [format]. *)
Inductive Text : Type :=
| Lit (s : string)
| Str (v : json)                    (* [str(v)] *)
| Fixed (digits : nat) (v : json)   (* [format(v, ".<digits>f")] *)
| Cat (a b : Text).

(** What the script writes to the page.  A chart carries the data it is
    drawn from. *)
Inductive Element : Type :=
| AutoRefresh (interval : Z)
| Image (url : string)
| Title (s : string)
| Toggle (label : string)
| Slider (label : string) (lo hi init : float)
| Divider
| Button (label : string)
| SuccessBox (msg : string)       (* [st.success] *)
| ErrorBox (msg : string)         (* [st.error] *)
| WarningBox (msg : string)       (* [st.warning] *)
| InfoBox (msg : string)          (* [st.info] *)
| Metric (label : string) (value : Text)
| Markdown (s : string)
| Subheader (s : string)
| Write (s : string)
| Caption (s : string)
| AreaChart (points : list (string * json))
| LineChart (points : list (string * json))
| BarChart (bars : list (string * json))
| UserChart (rows : list (string * json)).

Definition API_URL : string := "http://localhost:8000".
Definition REQUEST_TIMEOUT : Z := 3.

Definition unreachable_notice : Element :=
  ErrorBox " Backend unreachable. Ensure FastAPI server is running.".

Definition nominal_notice : Element :=
  SuccessBox "✅ All systems nominal. No anomalies detected.".

(** The severity an anomaly is shown with. *)
Inductive Severity : Type :=
| Critical
| Warning.

Definition burst_notice : Element := SuccessBox "Burst sent to API!".

(** ** One run of the script *)

(** What a run reads from outside: the widgets, the clock and the network. *)
Record Env : Type := {
  toggle_value : bool;                         (* [st.toggle] *)
  slider_value : float;                        (* [st.slider] *)
  button_pressed : bool;                       (* [st.button] *)
  utcnow_iso : nat -> string;                  (* the clock read for the i-th log *)
  post_raises : nat -> Request -> bool;        (* whether the i-th [requests.post] raises *)
  metrics_response : Request -> Response;      (* [requests.get] and [response.json()] *)
  clock_hms : string;                          (* [datetime.now().strftime("%H:%M:%S")] *)
  clock_full : string;                         (* [... .strftime("%Y-%m-%d %H:%M:%S")] *)
  chart_raises : Element -> bool;              (* whether drawing the chart raises *)
  sort_by_requests : dict -> option (list (string * json))
    (* the rows of [from_dict(counts, ...).sort_values("Requests")]; [None]
       where pandas raises *)
}.

Section Script.

Context {G : Type} `{PyRandom G}.

(** What a run changes: the session state and the generator persist between
    runs; the page and the requests sent are those of this run. *)
Record World : Type := {
  session : SessionState;
  rng : G;
  sidebar : list Element;
  page : list Element;
  network : list Request
}.

Definition start (ss : SessionState) (g : G) : World :=
  {| session := ss; rng := g; sidebar := []; page := []; network := [] |}.

Definition set_session (ss : SessionState) (w : World) : World :=
  {| session := ss; rng := rng w; sidebar := sidebar w; page := page w;
     network := network w |}.

Definition set_rng (g : G) (w : World) : World :=
  {| session := session w; rng := g; sidebar := sidebar w; page := page w;
     network := network w |}.

Definition add_sidebar (es : list Element) (w : World) : World :=
  {| session := session w; rng := rng w; sidebar := (sidebar w ++ es)%list;
     page := page w; network := network w |}.

Definition add_page (es : list Element) (w : World) : World :=
  {| session := session w; rng := rng w; sidebar := sidebar w;
     page := (page w ++ es)%list; network := network w |}.

Definition add_network (rs : list Request) (w : World) : World :=
  {| session := session w; rng := rng w; sidebar := sidebar w; page := page w;
     network := (network w ++ rs)%list |}.

(** How a piece of the script ends: it returns, it calls [st.stop()], or it
    raises an exception. *)
Inductive Result (A : Type) : Type :=
| Ok (a : A)
| Stop
| Raise.
Arguments Ok {A} a.
Arguments Stop {A}.
Arguments Raise {A}.

Definition Script (A : Type) : Type := World -> Result A * World.

Definition ret {A : Type} (a : A) : Script A := fun w => (Ok a, w).

Definition bind {A B : Type} (c : Script A) (k : A -> Script B) : Script B :=
  fun w =>
    match c w with
    | (Ok a, w') => k a w'
    | (Stop, w') => (Stop, w')
    | (Raise, w') => (Raise, w')
    end.

Notation "x <- c ;; k" := (bind c (fun x => k))
  (at level 61, c at next level, right associativity).
Notation "c ;; k" := (bind c (fun _ => k))
  (at level 61, right associativity).

Definition raise {A : Type} : Script A := fun w => (Raise, w).

(** [st.stop()] *)
Definition stop {A : Type} : Script A := fun w => (Stop, w).

(** [try: body / except: handler]: what [body] did before it raised stays
    done. *)
Definition try_except {A : Type} (body handler : Script A) : Script A :=
  fun w =>
    match body w with
    | (Raise, w') => handler w'
    | r => r
    end.

Definition of_option {A : Type} (o : option A) : Script A :=
  match o with
  | Some a => ret a
  | None => raise
  end.

Fixpoint for_each {A : Type} (l : list A) (body : A -> Script unit) : Script unit :=
  match l with
  | [] => ret tt
  | x :: rest => body x ;; for_each rest body
  end.

Definition emit (e : Element) : Script unit :=
  fun w => (Ok tt, add_page [e] w).

Definition emit_sidebar (e : Element) : Script unit :=
  fun w => (Ok tt, add_sidebar [e] w).

Definition send (r : Request) : Script unit :=
  fun w => (Ok tt, add_network [r] w).

Definition draw {A : Type} (f : G -> A * G) : Script A :=
  fun w => (Ok (fst (f (rng w))), set_rng (snd (f (rng w))) w).

(** [st.session_state.history], read and assigned. *)
Definition read_history : Script DataFrame :=
  fun w => of_option (history (session w)) w.

Definition write_history (df : DataFrame) : Script unit :=
  fun w => (Ok tt, set_session {| history := Some df |} w).

(** [if "history" not in st.session_state: ...] *)
Definition init_history : Script unit :=
  fun w =>
    match history (session w) with
    | None => write_history [] w
    | Some _ => ret tt w
    end.

(** *** The [random] functions the script calls *)

(** [random.choice(seq)] *)
Definition choice {A : Type} (seq : list A) : Script A :=
  i <- draw (randbelow (Z.of_nat (List.length seq))) ;;
  of_option (py_getitem seq i).

(** [random.randint(a, b)] *)
Definition randint (a b : Z) : Script Z :=
  let width := b + 1 - a in
  if 0 <? width then (i <- draw (randbelow width) ;; ret (a + i)) else raise.

(** *** Sidebar: settings and the burst generator *)

Definition burst_users : list string := ["alice_001"; "bob_002"; "charlie_003"].

Definition burst_log (env : Env) (i : nat) : Script LogRecord :=
  user <- choice burst_users ;;
  latency <- randint 100 1500 ;;
  tokens <- randint 50 2000 ;;
  u <- draw random ;;
  ret {| timestamp := utcnow_iso env i;
         user_id := user;
         latency_ms := latency;
         tokens_used := tokens;
         is_error := (u <? 0.08)%float |}.

(** [requests.post(url, json=log, timeout=t)] *)
Definition requests_post (env : Env) (i : nat) (url : string) (log : LogRecord)
    (t : Z) : Script unit :=
  let r := Post url log t in
  send r ;;
  if post_raises env i r then raise else ret tt.

Definition burst_item (env : Env) (i : nat) : Script unit :=
  log <- burst_log env i ;;
  try_except (requests_post env i (API_URL ++ "/ingest") log 1) (ret tt).

Definition generate_burst (env : Env) : Script unit :=
  for_each (seq 0 30) (burst_item env) ;;
  emit_sidebar burst_notice.

Definition sidebar_block (env : Env) : Script unit :=
  emit_sidebar (Image "https://cdn-icons-png.flaticon.com/512/2103/2103633.png") ;;
  emit_sidebar (Title "Settings") ;;
  emit_sidebar (Toggle "Live Stream Simulation") ;;
  emit_sidebar (Slider "Anomaly Sensitivity (k)" 0.5 3.0 1.5) ;;
  let stream_active := toggle_value env in
  let k_threshold := slider_value env in
  emit_sidebar Divider ;;
  emit_sidebar (Button " Generate Burst Logs") ;;
  if button_pressed env then generate_burst env else ret tt.

(** *** Data fetching *)

(** [requests.get(url, timeout=t)] followed by [response.json()] *)
Definition requests_get_json (env : Env) (url : string) (t : Z) : Script json :=
  let r := Get url t in
  send r ;;
  match metrics_response env r with
  | ConnectionFailed => raise
  | HttpReply _ None => raise
  | HttpReply _ (Some v) => ret v
  end.

(** [data.get(key, default)]; only a dict has [get]. *)
Definition py_get (data : json) (key : string) (default : json) : Script json :=
  match data with
  | JObj d => ret (dict_get d key default)
  | _ => raise
  end.

(** The dict [new_entry] of the script. *)
Definition new_entry (now : string) (data : json) : Script Row :=
  throughput <- py_get data "requests_per_min" (JInt 0) ;;
  rate <- py_get data "error_rate" (JFloat 0) ;;
  percent <- of_option (py_mul100 rate) ;;
  ret {| Time := now; Throughput := throughput; ErrorRate := percent |}.

(** The body of the [try]. *)
Definition fetch_and_update (env : Env) : Script json :=
  data <- requests_get_json env (API_URL ++ "/metrics") REQUEST_TIMEOUT ;;
  entry <- new_entry (clock_hms env) data ;;
  df <- read_history ;;
  write_history (df ++ [entry])%list ;;
  df <- read_history ;;
  write_history (tail 20 df) ;;
  ret data.

Definition backend_unreachable {A : Type} : Script A :=
  emit unreachable_notice ;;
  stop.

Definition data_fetching (env : Env) : Script json :=
  try_except (fetch_and_update env) backend_unreachable.

(** *** Main page *)

(** [f"{v:.<digits>f}"] *)
Definition format_fixed (digits : nat) (v : json) : Script Text :=
  if fixed_ok v then ret (Fixed digits v) else raise.

Definition kpi_cards (data : json) : Script unit :=
  rpm <- py_get data "requests_per_min" (JInt 0) ;;
  emit (Metric "Throughput" (Cat (Str rpm) (Lit " RPM"))) ;;
  err <- py_get data "error_rate" (JFloat 0) ;;
  percent <- of_option (py_mul100 err) ;;
  shown <- format_fixed 1 percent ;;
  emit (Metric "Error Rate" (Cat shown (Lit "%"))) ;;
  p95 <- py_get data "p95_latency" (JInt 0) ;;
  shown <- format_fixed 0 p95 ;;
  emit (Metric "P95 Latency" (Cat shown (Lit " ms"))) ;;
  cost <- py_get data "estimated_cost_usd" (JFloat 0) ;;
  shown <- format_fixed 4 cost ;;
  emit (Metric "Est. Cost" (Cat (Lit "$") shown)).

(** [st.area_chart], [st.line_chart], [st.bar_chart]: the chart is on the
    page unless building or drawing it raises. *)
Definition draw_chart (env : Env) (chart : Element) : Script unit :=
  if chart_raises env chart then raise else emit chart.

Definition performance_trends (env : Env) : Script unit :=
  emit (Subheader " Performance Trends") ;;
  emit (Write "*Throughput (Requests/Min)*") ;;
  df <- read_history ;;
  draw_chart env (AreaChart (map (fun r => (Time r, Throughput r)) df)) ;;
  emit (Write "*Error Rate (%)*") ;;
  df <- read_history ;;
  draw_chart env (LineChart (map (fun r => (Time r, ErrorRate r)) df)).

Definition latency_percentiles (env : Env) (data : json) : Script unit :=
  emit (Subheader " Latency Percentiles") ;;
  p50 <- py_get data "p50_latency" (JInt 0) ;;
  p95 <- py_get data "p95_latency" (JInt 0) ;;
  p99 <- py_get data "p99_latency" (JInt 0) ;;
  draw_chart env (BarChart [("P50", p50); ("P95", p95); ("P99", p99)]).

(** Only a dict can be turned into the frame of the chart. *)
Definition user_distribution (env : Env) (data : json) : Script unit :=
  emit (Subheader " User Distribution") ;;
  user_counts <- py_get data "per_user_requests" (JObj []) ;;
  if py_truthy user_counts then
    match user_counts with
    | JObj counts =>
        user_df <- of_option (sort_by_requests env counts) ;;
        draw_chart env (UserChart user_df)
    | _ => raise
    end
  else emit (InfoBox "No active user data in window.").

(** The severity of one anomaly: [if "CRITICAL" in alert.upper()]. *)
Definition classify (alert : string) : Severity :=
  if contains "CRITICAL" (upper alert) then Critical else Warning.

Definition alert_box (alert : string) : Element :=
  match classify alert with
  | Critical => ErrorBox ("🔴 " ++ alert)
  | Warning => WarningBox ("🟡 " ++ alert)
  end.

(** The body of [for alert in anomalies]; only a [str] has [upper]. *)
Definition show_alert (alert : json) : Script unit :=
  match alert with
  | JStr s => emit (alert_box s)
  | _ => raise
  end.

Definition incident_log (data : json) : Script unit :=
  emit (Subheader " Incident Log") ;;
  anomalies <- py_get data "anomalies" (JArr []) ;;
  if py_truthy anomalies then
    alerts <- of_option (py_iter anomalies) ;;
    for_each alerts show_alert
  else emit nominal_notice.

Definition main_ui (env : Env) (data : json) : Script unit :=
  emit (Title "AI API Real-Time Monitor") ;;
  kpi_cards data ;;
  emit (Markdown "---") ;;
  performance_trends env ;;
  emit (Markdown "---") ;;
  latency_percentiles env data ;;
  user_distribution env data ;;
  emit (Markdown "---") ;;
  incident_log data ;;
  emit (Caption ("Last updated: " ++ clock_full env)).

(** *** The script *)

Definition script (env : Env) : Script unit :=
  init_history ;;
  emit (AutoRefresh 5000) ;;
  sidebar_block env ;;
  data <- data_fetching env ;;
  main_ui env data.

(** One refresh cycle: the script run on the session state and generator
    the previous cycle left. *)
Definition run (env : Env) (ss : SessionState) (g : G) : Result unit * World :=
  script env (start ss g).

Definition cycle (env : Env) (st : SessionState * G) : SessionState * G :=
  let w := snd (run env (fst st) (snd st)) in (session w, rng w).

(** The cycles of [envs], one after the other. *)
Definition cycles (envs : list Env) (st : SessionState * G) : SessionState * G :=
  fold_left (fun st env => cycle env st) envs st.

End Script.

Arguments Ok {A} a.
Arguments Stop {A}.
Arguments Raise {A}.

(** ** Case-insensitive containment, as the specification words it *)

(** Two characters that are equal up to the case of a letter. *)
Definition same_letter (c d : ascii) : Prop :=
  c = d \/
  (is_lower c = true /\ d = upper_ascii c) \/
  (is_lower d = true /\ c = upper_ascii d).

Fixpoint equal_ignoring_case (s t : string) : Prop :=
  match s, t with
  | EmptyString, EmptyString => True
  | String c s', String d t' => same_letter c d /\ equal_ignoring_case s' t'
  | _, _ => False
  end.

(** [s] has a substring equal to [pat] up to case. *)
Definition contains_ignoring_case (pat s : string) : Prop :=
  exists before found after,
    s = before ++ found ++ after /\ equal_ignoring_case found pat.

(** The ASCII letters of [s] in upper case, every other byte as it is. *)
Fixpoint upper_letters (s : string) : string :=
  match s with
  | EmptyString => EmptyString
  | String c rest => String (upper_ascii c) (upper_letters rest)
  end.

(** The bytes of one character, as [str_chars] cuts them: a byte followed by
    continuation bytes. *)
Fixpoint all_continuation (s : string) : bool :=
  match s with
  | EmptyString => true
  | String c rest => is_continuation c && all_continuation rest
  end.

Definition is_char (ch : string) : bool :=
  match ch with
  | EmptyString => false
  | String _ rest => all_continuation rest
  end.

(** No lower-case letter occurs in [s]. *)
Fixpoint no_lower (s : string) : bool :=
  match s with
  | EmptyString => true
  | String c rest => negb (is_lower c) && no_lower rest
  end.

(** ** A generator to run the model on *)

Definition counter_randbelow (n : Z) (g : Z) : Z * Z := (g mod n, g + 1).

Definition counter_random (g : Z) : float * Z :=
  (if g mod 2 =? 0 then 0.05%float else 0.5%float, g + 1).

Definition counter : PyRandom Z :=
  {| randbelow := counter_randbelow;
     random := counter_random;
     randbelow_range := fun n g Hn => Z.mod_pos_bound g n Hn |}.

(** ** The script's steps as functions of their inputs *)

Definition ingest_post (log : LogRecord) : Request :=
  Post (API_URL ++ "/ingest") log 1.

Definition metrics_get : Request := Get (API_URL ++ "/metrics") REQUEST_TIMEOUT.

(** The elements of the sidebar before the burst confirmation. *)
Definition settings_panel : list Element :=
  [ Image "https://cdn-icons-png.flaticon.com/512/2103/2103633.png";
    Title "Settings";
    Toggle "Live Stream Simulation";
    Slider "Anomaly Sensitivity (k)" 0.5 3.0 1.5;
    Divider;
    Button " Generate Burst Logs" ].

Section Steps.

Context {G : Type} `{PyRandom G}.

(** The log the burst generator draws from generator state [g], and the
    state it leaves. *)
Definition drawn_log (env : Env) (i : nat) (g : G) : LogRecord * G :=
  let r1 := randbelow 3 g in
  let r2 := randbelow 1401 (snd r1) in
  let r3 := randbelow 1951 (snd r2) in
  let r4 := random (snd r3) in
  ({| timestamp := utcnow_iso env i;
      user_id := nth (Z.to_nat (fst r1)) burst_users "";
      latency_ms := 100 + fst r2;
      tokens_used := 50 + fst r3;
      is_error := (fst r4 <? 0.08)%float |}, snd r4).

Fixpoint drawn_logs (env : Env) (indices : list nat) (g : G) : list LogRecord * G :=
  match indices with
  | [] => ([], g)
  | i :: rest =>
      let r := drawn_log env i g in
      let rs := drawn_logs env rest (snd r) in
      (fst r :: fst rs, snd rs)
  end.

(** The fields of a drawn log lie in the ranges the generator asks for. *)
Definition log_in_range (log : LogRecord) : Prop :=
  In (user_id log) burst_users
  /\ 100 <= latency_ms log <= 1500
  /\ 50 <= tokens_used log <= 2000
  /\ exists g : G, is_error log = (fst (random g) <? 0.08)%float.

(** The world the sidebar block leaves. *)
Definition after_sidebar (env : Env) (w : World) : World :=
  if button_pressed env then
    let r := drawn_logs env (seq 0 30) (rng w) in
    add_sidebar (settings_panel ++ [burst_notice])
      (add_network (map ingest_post (fst r)) (set_rng (snd r) w))
  else add_sidebar settings_panel w.

(** The world in which the script reaches its [try]. *)
Definition before_fetch (env : Env) (ss : SessionState) (g : G) : World :=
  after_sidebar env
    (add_page [AutoRefresh 5000]
       (set_session {| history := Some (buffer ss) |} (start ss g))).

(** [c], run in [w], writes some elements [es] to the page, changes nothing
    else, and its result and [es] satisfy [Q]. *)
Definition after {A : Type} (c : @Script G A) (w : @World G)
    (Q : Result A -> list Element -> Prop) : Prop :=
  exists es, snd (c w) = add_page es w /\ Q (fst (c w)) es.

End Steps.


(** The element is neither the all-nominal notice nor the heading of the
    incident log: what stands above the incident log is of this kind. *)
Definition above_incident_log (e : Element) : Prop :=
  e <> nominal_notice /\ e <> Subheader " Incident Log".

(** [box] shows [alert] with its severity: an error box when the upper-case
    form of the text holds CRITICAL, a warning box otherwise. *)
Definition shown_with_severity (alert : string) (box : Element) : Prop :=
  (contains "CRITICAL" (upper alert) = true /\ box = ErrorBox ("🔴 " ++ alert))
  \/ (contains "CRITICAL" (upper alert) = false
      /\ box = WarningBox ("🟡 " ++ alert)).

(** What the incident log shows for a sequence of anomaly strings. *)
Definition incident_boxes (alerts : list string) : list Element :=
  match alerts with
  | [] => [nominal_notice]
  | _ => map alert_box alerts
  end.

(** The record a payload yields at clock reading [now]; [None] where building
    it raises. *)
Definition derived_record (now : string) (data : json) : option Row :=
  match data with
  | JObj d =>
      match py_mul100 (dict_get d "error_rate" (JFloat 0)) with
      | Some percent =>
          Some {| Time := now;
                  Throughput := dict_get d "requests_per_min" (JInt 0);
                  ErrorRate := percent |}
      | None => None
      end
  | _ => None
  end.

(** The payload and record of a cycle whose fetch succeeds. *)
Definition fetched (env : Env) : option (json * Row) :=
  match metrics_response env metrics_get with
  | HttpReply _ (Some data) =>
      match derived_record (clock_hms env) data with
      | Some row => Some (data, row)
      | None => None
      end
  | _ => None
  end.

(** The buffer a cycle leaves, from the buffer it finds. *)
Definition next_buffer (env : Env) (buf : DataFrame) : DataFrame :=
  match fetched env with
  | Some (_, row) => tail 20 (buf ++ [row])%list
  | None => buf
  end.

(** The records of the cycles of [envs] whose fetch succeeds, in order. *)
Definition records (envs : list Env) : list Row :=
  flat_map (fun env => match fetched env with
                       | Some (_, row) => [row]
                       | None => []
                       end) envs.

(** Environments that differ in one reading. *)
Definition with_response (r : Response) (env : Env) : Env :=
  {| toggle_value := toggle_value env; slider_value := slider_value env;
     button_pressed := button_pressed env; utcnow_iso := utcnow_iso env;
     post_raises := post_raises env; metrics_response := fun _ => r;
     clock_hms := clock_hms env; clock_full := clock_full env;
     chart_raises := chart_raises env;
     sort_by_requests := sort_by_requests env |}.

Definition with_slider (k : float) (env : Env) : Env :=
  {| toggle_value := toggle_value env; slider_value := k;
     button_pressed := button_pressed env; utcnow_iso := utcnow_iso env;
     post_raises := post_raises env; metrics_response := metrics_response env;
     clock_hms := clock_hms env; clock_full := clock_full env;
     chart_raises := chart_raises env;
     sort_by_requests := sort_by_requests env |}.

Definition with_post_raises (raises : nat -> Request -> bool) (env : Env) : Env :=
  {| toggle_value := toggle_value env; slider_value := slider_value env;
     button_pressed := button_pressed env; utcnow_iso := utcnow_iso env;
     post_raises := raises; metrics_response := metrics_response env;
     clock_hms := clock_hms env; clock_full := clock_full env;
     chart_raises := chart_raises env;
     sort_by_requests := sort_by_requests env |}.

(** *** Whether the page can be drawn from a payload *)

Definition is_str (v : json) : bool :=
  match v with
  | JStr _ => true
  | _ => false
  end.

(** The error-rate card: the rate times 100 can be formatted. *)
Definition percent_ok (v : json) : bool :=
  match py_mul100 v with
  | Some percent => fixed_ok percent
  | None => false
  end.

(** The user panel: a true value must be a dict. *)
Definition users_ok (v : json) : bool :=
  if py_truthy v then
    match v with
    | JObj _ => true
    | _ => false
    end
  else true.

(** The incident log: a true value must be iterable and yield strings. *)
Definition alerts_ok (v : json) : bool :=
  if py_truthy v then
    match py_iter v with
    | Some alerts => forallb is_str alerts
    | None => false
    end
  else true.

(** What the cards, the user panel and the incident log need of payload [d]
    not to raise; the charts may still raise. *)
Definition page_ok (d : dict) : bool :=
  percent_ok (dict_get d "error_rate" (JFloat 0))
  && fixed_ok (dict_get d "p95_latency" (JInt 0))
  && fixed_ok (dict_get d "estimated_cost_usd" (JFloat 0))
  && users_ok (dict_get d "per_user_requests" (JObj []))
  && alerts_ok (dict_get d "anomalies" (JArr [])).

(** The fields of a payload, each with the value the script reads when the
    field is absent. *)
Definition default_fields : dict :=
  [ ("requests_per_min", JInt 0);
    ("error_rate", JFloat 0);
    ("p50_latency", JInt 0);
    ("p95_latency", JInt 0);
    ("p99_latency", JInt 0);
    ("estimated_cost_usd", JFloat 0);
    ("per_user_requests", JObj []);
    ("anomalies", JArr []) ].

(** The payload with every absent field written out. *)
Definition with_defaults (d : dict) : dict := (d ++ default_fields)%list.

(** ** Sample inputs *)

(** A sample of what pandas and Streamlit do: a chart is drawn when its
    values are floats or integers of 64 bits, and raises otherwise; counts
    that are integers of 64 bits are sorted in ascending order, and other
    counts raise. *)
Definition fits_int64 (z : Z) : bool := (- 2 ^ 63 <=? z) && (z <? 2 ^ 63).

Definition sample_plottable (v : json) : bool :=
  match v with
  | JInt z => fits_int64 z
  | JFloat _ => true
  | _ => false
  end.

Definition sample_chart_raises (chart : Element) : bool :=
  match chart with
  | AreaChart points | LineChart points | BarChart points | UserChart points =>
      negb (forallb (fun point => sample_plottable (snd point)) points)
  | _ => false
  end.

Fixpoint insert_row (row : string * Z) (sorted : list (string * Z))
    : list (string * Z) :=
  match sorted with
  | [] => [row]
  | r :: rest =>
      if snd row <=? snd r then row :: sorted else r :: insert_row row rest
  end.

Fixpoint int_counts (counts : dict) : option (list (string * Z)) :=
  match counts with
  | [] => Some []
  | (user, JInt z) :: rest =>
      match int_counts rest with
      | Some rows => if fits_int64 z then Some ((user, z) :: rows) else None
      | None => None
      end
  | _ => None
  end.

Definition sample_sort (counts : dict) : option (list (string * json)) :=
  match int_counts counts with
  | Some rows =>
      Some (map (fun row => (fst row, JInt (snd row))) (fold_right insert_row [] rows))
  | None => None
  end.

Definition sample_env (r : Response) : Env :=
  {| toggle_value := true;
     slider_value := 1.5;
     button_pressed := false;
     utcnow_iso := fun _ => "2024-05-01T12:00:00+00:00";
     post_raises := fun _ _ => false;
     metrics_response := fun _ => r;
     clock_hms := "12:00:00";
     clock_full := "2024-05-01 12:00:00";
     chart_raises := sample_chart_raises;
     sort_by_requests := sample_sort |}.

Definition pressed_env : Env :=
  {| toggle_value := true;
     slider_value := 1.5;
     button_pressed := true;
     utcnow_iso := fun _ => "2024-05-01T12:00:00+00:00";
     post_raises := fun i _ => Nat.even i;
     metrics_response := fun _ => ConnectionFailed;
     clock_hms := "12:00:00";
     clock_full := "2024-05-01 12:00:00";
     chart_raises := sample_chart_raises;
     sort_by_requests := sample_sort |}.

(** A payload with a throughput and an error rate. *)
Definition reading (rpm : Z) (rate : float) : json :=
  JObj [("requests_per_min", JInt rpm); ("error_rate", JFloat rate)].

Definition answering (data : json) (env : Env) : Env :=
  with_response (HttpReply 200 (Some data)) env.

Definition twenty_one_fetches : list Env :=
  repeat (sample_env (HttpReply 200 (Some (reading 10 0.01)))) 21.

(** A session that holds the record of one earlier fetch. *)
Definition one_record_session : SessionState :=
  {| history :=
       Some [{| Time := "11:59:55"; Throughput := JInt 10; ErrorRate := JFloat 1 |}] |}.



(** ** More of the script *)

Definition with_toggle (b : bool) (env : Env) : Env :=
  {| toggle_value := b; slider_value := slider_value env;
     button_pressed := button_pressed env; utcnow_iso := utcnow_iso env;
     post_raises := post_raises env; metrics_response := metrics_response env;
     clock_hms := clock_hms env; clock_full := clock_full env;
     chart_raises := chart_raises env;
     sort_by_requests := sort_by_requests env |}.

(** The logs a run posts and the generator state it leaves. *)
Definition burst_of {G : Type} `{PyRandom G} (env : Env) (g : G)
    : list LogRecord * G :=
  if button_pressed env then drawn_logs env (seq 0 30) g else ([], g).

(** The boxes the loop over the anomalies writes: one per string, up to the
    first item that is not a string. *)
Fixpoint shown_alerts (alerts : list json) : list Element :=
  match alerts with
  | JStr s :: rest => alert_box s :: shown_alerts rest
  | _ => []
  end.

(** The four cards, for an error rate whose hundredfold is [percent]. *)
Definition kpi_elements (d : dict) (percent : json) : list Element :=
  [ Metric "Throughput"
      (Cat (Str (dict_get d "requests_per_min" (JInt 0))) (Lit " RPM"));
    Metric "Error Rate" (Cat (Fixed 1 percent) (Lit "%"));
    Metric "P95 Latency"
      (Cat (Fixed 0 (dict_get d "p95_latency" (JInt 0))) (Lit " ms"));
    Metric "Est. Cost"
      (Cat (Lit "$") (Fixed 4 (dict_get d "estimated_cost_usd" (JFloat 0)))) ].

Definition trend_elements (df : DataFrame) : list Element :=
  [ Subheader " Performance Trends";
    Write "*Throughput (Requests/Min)*";
    AreaChart (map (fun r => (Time r, Throughput r)) df);
    Write "*Error Rate (%)*";
    LineChart (map (fun r => (Time r, ErrorRate r)) df) ].

Definition latency_elements (d : dict) : list Element :=
  [ Subheader " Latency Percentiles";
    BarChart [ ("P50", dict_get d "p50_latency" (JInt 0));
               ("P95", dict_get d "p95_latency" (JInt 0));
               ("P99", dict_get d "p99_latency" (JInt 0)) ] ].

(** What the user panel writes for the value read for per_user_requests. *)
Definition user_elements (env : Env) (v : json) : list Element :=
  Subheader " User Distribution"
  :: (if py_truthy v then
        match v with
        | JObj counts =>
            match sort_by_requests env counts with
            | Some rows => [UserChart rows]
            | None => []
            end
        | _ => []
        end
      else [InfoBox "No active user data in window."]).

(** What the incident log writes for the value read for anomalies. *)
Definition incident_elements (v : json) : list Element :=
  Subheader " Incident Log"
  :: (if py_truthy v then
        match py_iter v with
        | Some alerts => shown_alerts alerts
        | None => []
        end
      else [nominal_notice]).

(** The main page of a run that draws it to its end. *)
Definition main_page (env : Env) (d : dict) (percent : json) (df : DataFrame)
    : list Element :=
  (Title "AI API Real-Time Monitor" :: kpi_elements d percent
   ++ Markdown "---" :: trend_elements df
   ++ Markdown "---" :: latency_elements d
   ++ user_elements env (dict_get d "per_user_requests" (JObj []))
   ++ Markdown "---" :: incident_elements (dict_get d "anomalies" (JArr []))
   ++ [Caption ("Last updated: " ++ clock_full env)])%list.

(** The element is not the backend-unreachable notice. *)
Definition other_than_unreachable (e : Element) : Prop := e <> unreachable_notice.

(** Sample payloads. *)
Definition mixed_cycles : list Env :=
  [ sample_env (HttpReply 200 (Some (reading 10 0.01)));
    sample_env ConnectionFailed;
    sample_env (HttpReply 500 (Some (reading 20 0.05))) ].

Definition string_rate : dict := [("error_rate", JStr "0.5")].

Definition broken_anomalies : dict :=
  [("anomalies", JArr [JStr "slow"; JInt 3; JStr "late"])].

Section Views.

Context {G : Type}.

(** Two worlds that show the same page and hold the same session state. *)
Definition same_view (w w' : @World G) : Prop :=
  session w = session w' /\ page w = page w'.

(** A script whose result, page and session state depend on nothing but the
    page and the session state it starts from. *)
Definition view_only {A : Type} (c : @Script G A) : Prop :=
  forall w w',
    same_view w w' ->
    fst (c w) = fst (c w') /\ same_view (snd (c w)) (snd (c w')).

End Views.

(** * Properties *)

(** ** Strings *)

Lemma prefix_iff (p s : string) :
  String.prefix p s = true <-> exists rest, s = p ++ rest.
Proof.
  revert s. induction p as [|c p IH]; intros s.
  - split; [intros _; now exists s | intros _; now destruct s].
  - destruct s as [|d s]; simpl.
    + split; [discriminate | intros [rest Hr]; discriminate].
    + destruct (ascii_dec c d) as [->|Hne].
      * rewrite IH. split; intros [rest Hr]; exists rest; congruence.
      * split; [discriminate | intros [rest Hr]; congruence].
Qed.

Lemma contains_iff (p s : string) :
  contains p s = true <-> exists before after, s = before ++ p ++ after.
Proof.
  induction s as [|d s IH].
  - cbn [contains]. rewrite Bool.orb_false_r, prefix_iff. split.
    + intros [rest Hr]. now exists "", rest.
    + intros [before [after Hs]]. destruct before; simpl in Hs.
      * now exists after.
      * discriminate.
  - cbn [contains]. rewrite Bool.orb_true_iff, prefix_iff, IH. split.
    + intros [[rest Hr] | [before [after Hs]]].
      * now exists "", rest.
      * exists (String d before), after. simpl. now rewrite Hs.
    + intros [before [after Hs]]. destruct before as [|c before]; simpl in Hs.
      * left. now exists after.
      * right. exists before, after. congruence.
Qed.

Lemma upper_letters_append (a b : string) :
  upper_letters (a ++ b) = upper_letters a ++ upper_letters b.
Proof. induction a as [|c a IH]; simpl; [reflexivity | now rewrite IH]. Qed.

Lemma upper_letters_split (s a b : string) :
  upper_letters s = a ++ b ->
  exists s1 s2, s = s1 ++ s2 /\ upper_letters s1 = a /\ upper_letters s2 = b.
Proof.
  revert s. induction a as [|c a IH]; intros s Hs.
  - exists "", s. auto.
  - destruct s as [|d s]; simpl in Hs; [discriminate|].
    injection Hs as Hc Hs. destruct (IH _ Hs) as [s1 [s2 [-> [H1 H2]]]].
    exists (String d s1), s2. simpl. repeat split; congruence.
Qed.

Lemma upper_ascii_same_letter (c d : ascii) :
  is_lower d = false -> (upper_ascii c = d <-> same_letter c d).
Proof.
  intros Hd. unfold same_letter. split.
  - intros Hc. unfold upper_ascii in Hc. destruct (is_lower c) eqn:Hl.
    + right; left. split; [reflexivity|]. unfold upper_ascii. now rewrite Hl.
    + now left.
  - intros [-> | [[_ ->] | [Hl _]]].
    + unfold upper_ascii. now rewrite Hd.
    + reflexivity.
    + congruence.
Qed.

Lemma upper_letters_equal_ignoring_case (s p : string) :
  no_lower p = true -> (upper_letters s = p <-> equal_ignoring_case s p).
Proof.
  revert p. induction s as [|c s IH]; intros [|d p] Hp; simpl;
    try (split; [discriminate | contradiction]); [tauto|].
  simpl in Hp. apply Bool.andb_true_iff in Hp as [Hd Hp].
  apply Bool.negb_true_iff in Hd.
  rewrite <- (IH p Hp), <- (upper_ascii_same_letter c d Hd).
  split; [intros E; injection E; auto | intros [-> ->]; reflexivity].
Qed.

(** Containment up to case is containment in the text with its letters in
    upper case. *)
Lemma contains_ignoring_case_iff (p s : string) :
  no_lower p = true ->
  (contains p (upper_letters s) = true <-> contains_ignoring_case p s).
Proof.
  intros Hp. rewrite contains_iff. unfold contains_ignoring_case. split.
  - intros [before [after Hs]].
    destruct (upper_letters_split _ _ _ Hs) as [s1 [s' [-> [H1 H']]]].
    destruct (upper_letters_split _ _ _ H') as [s2 [s3 [-> [H2 H3]]]].
    exists s1, s2, s3. split; [reflexivity|].
    now apply upper_letters_equal_ignoring_case.
  - intros [s1 [s2 [s3 [-> Hm]]]].
    apply upper_letters_equal_ignoring_case in Hm; [|exact Hp].
    exists (upper_letters s1), (upper_letters s3).
    now rewrite !upper_letters_append, Hm.
Qed.

(** *** [str.upper] on ASCII text *)

Lemma ascii_not_continuation (c : ascii) :
  (N_of_ascii c <? 128)%N = true -> is_continuation c = false.
Proof. destruct c as [[] [] [] [] [] [] [] []]; try discriminate; reflexivity. Qed.

Lemma isascii_starts (s : string) :
  isascii s = true -> starts_with_continuation s = false.
Proof.
  destruct s as [|c s]; simpl; [reflexivity|].
  intros Hs. apply Bool.andb_true_iff in Hs as [Hc _].
  now apply ascii_not_continuation.
Qed.

Lemma upper_isascii (s : string) :
  isascii s = true -> upper s = upper_letters s.
Proof.
  induction s as [|c s IH]; [reflexivity|].
  intros Hs. cbn [isascii] in Hs. apply Bool.andb_true_iff in Hs as [Hc Hs].
  unfold upper. cbn [str_chars]. rewrite (isascii_starts s Hs).
  cbn [map fold_right upper_char String.append upper_letters].
  fold (upper s). now rewrite (IH Hs).
Qed.

Lemma classify_isascii (alert : string) :
  isascii alert = true ->
  (classify alert = Critical <-> contains_ignoring_case "CRITICAL" alert).
Proof.
  intros Ha. rewrite <- contains_ignoring_case_iff by reflexivity.
  unfold classify. rewrite (upper_isascii alert Ha).
  destruct (contains "CRITICAL" (upper_letters alert)); split; congruence.
Qed.

(** *** [str.upper] on one character *)

Lemma append_empty (s : string) : s ++ "" = s.
Proof. induction s as [|c s IH]; simpl; [reflexivity | now rewrite IH]. Qed.

Lemma append_length (a b : string) :
  String.length (a ++ b) = (String.length a + String.length b)%nat.
Proof. induction a as [|c a IH]; simpl; [reflexivity | now rewrite IH]. Qed.

Lemma contains_length (p s : string) :
  contains p s = true -> (String.length p <= String.length s)%nat.
Proof.
  intros Hc. apply contains_iff in Hc as [before [after ->]].
  rewrite !append_length. lia.
Qed.

Lemma str_chars_are_chars (s : string) :
  Forall (fun ch => is_char ch = true) (str_chars s)
  /\ (starts_with_continuation s = true ->
      exists ch more, str_chars s = ch :: more /\ all_continuation ch = true).
Proof.
  induction s as [|c rest [IHall IHfirst]].
  - split; [constructor | discriminate].
  - cbn [str_chars starts_with_continuation].
    destruct (starts_with_continuation rest) eqn:Hs.
    + destruct (IHfirst eq_refl) as [ch [more [Hch Hcont]]]. rewrite Hch in *.
      inversion IHall as [|? ? _ Hmore]; subst. split.
      * constructor; [exact Hcont | exact Hmore].
      * intros Hc. exists (String c ch), more. split; [reflexivity|].
        simpl. now rewrite Hc, Hcont.
    + split.
      * constructor; [reflexivity | exact IHall].
      * intros Hc. exists (String c ""), (str_chars rest). split; [reflexivity|].
        simpl. now rewrite Hc.
Qed.

Lemma str_chars_cons (c : ascii) (rest : string) :
  str_chars (String c rest)
  = if starts_with_continuation rest then
      match str_chars rest with
      | [] => [String c ""]
      | ch :: more => String c ch :: more
      end
    else String c "" :: str_chars rest.
Proof. reflexivity. Qed.

Lemma str_chars_char (ch : string) : is_char ch = true -> str_chars ch = [ch].
Proof.
  destruct ch as [|c conts]; [discriminate|]. cbn [is_char].
  revert c. induction conts as [|c' rest IH]; intros c Hconts; [reflexivity|].
  cbn [all_continuation] in Hconts. apply Bool.andb_true_iff in Hconts as [Hc' Hrest].
  rewrite str_chars_cons. cbn [starts_with_continuation].
  now rewrite Hc', (IH c' Hrest).
Qed.

Lemma upper_one_char (ch : string) : is_char ch = true -> upper ch = upper_char ch.
Proof.
  intros Hch. unfold upper. rewrite (str_chars_char ch Hch).
  cbn [map fold_right]. apply append_empty.
Qed.

Lemma continuation_not_critical (s : string) :
  all_continuation s = true -> contains "CRITICAL" s = false.
Proof.
  induction s as [|c s IH]; [reflexivity|].
  cbn [all_continuation]. intros Hs. apply Bool.andb_true_iff in Hs as [Hc Hs].
  cbn [contains]. rewrite (IH Hs), Bool.orb_false_r.
  cbn [String.prefix]. destruct (ascii_dec "C" c) as [<-|_]; [discriminate | reflexivity].
Qed.

Lemma char_not_critical (ch : string) :
  is_char ch = true -> contains "CRITICAL" ch = false.
Proof.
  destruct ch as [|c conts]; [discriminate|]. cbn [is_char]. intros Hconts.
  cbn [contains]. rewrite (continuation_not_critical conts Hconts), Bool.orb_false_r.
  cbn [String.prefix]. destruct (ascii_dec "C" c) as [_|_]; [|reflexivity].
  destruct conts as [|c' rest]; [reflexivity|].
  cbn [all_continuation] in Hconts. apply Bool.andb_true_iff in Hconts as [Hc' _].
  cbn [String.prefix].
  destruct (ascii_dec "R" c') as [<-|_]; [discriminate | reflexivity].
Qed.

Lemma upper_forms_not_critical :
  forallb (fun form => negb (contains "CRITICAL" (snd form))) upper_forms = true.
Proof. vm_compute. reflexivity. Qed.

Lemma upper_char_not_critical (ch : string) :
  is_char ch = true -> contains "CRITICAL" (upper_char ch) = false.
Proof.
  intros Hch.
  assert (Hlook : contains "CRITICAL"
                    match find (fun form => String.eqb (fst form) ch) upper_forms with
                    | Some form => snd form
                    | None => ch
                    end = false).
  { destruct (find (fun form => String.eqb (fst form) ch) upper_forms)
      as [form|] eqn:Hfind.
    - apply find_some in Hfind as [Hin _].
      pose proof upper_forms_not_critical as Hall.
      rewrite forallb_forall in Hall. apply Bool.negb_true_iff. now apply Hall.
    - now apply char_not_critical. }
  destruct ch as [|c [|c' rest]]; [discriminate | | exact Hlook].
  destruct (contains "CRITICAL" (upper_char (String c ""))) eqn:Hc; [|reflexivity].
  apply contains_length in Hc. simpl in Hc. lia.
Qed.

(** One character never holds the word. *)
Lemma classify_one_character (ch : string) :
  is_char ch = true -> classify ch = Warning.
Proof.
  intros Hch. unfold classify.
  now rewrite (upper_one_char ch Hch), (upper_char_not_critical ch Hch).
Qed.


(** ** Dicts *)

Lemma dict_get_absent (d : dict) (key : string) (default : json) :
  dict_has d key = false -> dict_get d key default = default.
Proof.
  induction d as [|[k v] d IH]; simpl; [reflexivity|].
  destruct (String.eqb k key); simpl; [discriminate | exact IH].
Qed.

Lemma dict_get_app (d d' : dict) (key : string) (default : json) :
  dict_get (d ++ d')%list key default = dict_get d key (dict_get d' key default).
Proof.
  induction d as [|[k v] d IH]; simpl; [reflexivity|].
  now destruct (String.eqb k key).
Qed.

Lemma dict_get_del (d : dict) (k key : string) (default : json) :
  dict_get (dict_del d k) key default
  = if String.eqb key k then default else dict_get d key default.
Proof.
  induction d as [|[k0 v0] d IH]; simpl.
  - now destruct (String.eqb key k).
  - destruct (String.eqb k0 k) eqn:Hk.
    + rewrite IH. apply String.eqb_eq in Hk. subst k0.
      destruct (String.eqb key k) eqn:Hkey; [reflexivity|].
      rewrite String.eqb_sym, Hkey. reflexivity.
    + simpl. rewrite IH. destruct (String.eqb k0 key) eqn:Hkey; [|reflexivity].
      apply String.eqb_eq in Hkey. subst k0. now rewrite Hk.
Qed.

(** ** Running scripts *)

Section Running.

Local Open Scope list_scope.

Context {G : Type} `{PyRandom G}.

Implicit Types (w : @World G) (env : Env).

Lemma add_page_nil w : add_page [] w = w.
Proof. destruct w. unfold add_page. simpl. now rewrite app_nil_r. Qed.

Lemma add_page_add_page (a b : list Element) w :
  add_page b (add_page a w) = add_page (a ++ b) w.
Proof. unfold add_page. simpl. now rewrite app_assoc. Qed.

Lemma add_network_nil w : add_network [] w = w.
Proof. destruct w. unfold add_network. simpl. now rewrite app_nil_r. Qed.

Lemma set_rng_same w : set_rng (rng w) w = w.
Proof. now destruct w. Qed.

Lemma set_session_same w : set_session (session w) w = w.
Proof. now destruct w. Qed.

(** *** The burst generator *)

Lemma py_getitem_nth {A : Type} (l : list A) (i : Z) (d : A) :
  0 <= i < Z.of_nat (List.length l) ->
  py_getitem l i = Some (nth (Z.to_nat i) l d).
Proof.
  intros Hi. unfold py_getitem.
  replace (0 <=? i) with true by (symmetry; apply Z.leb_le; lia).
  replace (i <? Z.of_nat (List.length l)) with true by (symmetry; apply Z.ltb_lt; lia).
  simpl. apply nth_error_nth'. lia.
Qed.

Lemma burst_log_run env (i : nat) w :
  burst_log env i w
  = (Ok (fst (drawn_log env i (rng w))), set_rng (snd (drawn_log env i (rng w))) w).
Proof.
  unfold burst_log, choice, randint, bind, draw, ret. simpl.
  rewrite (py_getitem_nth burst_users _ "") by (apply randbelow_range; reflexivity).
  reflexivity.
Qed.

Lemma burst_item_run env (i : nat) w :
  burst_item env i w
  = (Ok tt, add_network [ingest_post (fst (drawn_log env i (rng w)))]
              (set_rng (snd (drawn_log env i (rng w))) w)).
Proof.
  unfold burst_item, bind. rewrite burst_log_run.
  unfold try_except, requests_post, bind, send, ingest_post.
  destruct (post_raises env i _); reflexivity.
Qed.

Lemma burst_loop_run env (indices : list nat) w :
  for_each indices (burst_item env) w
  = (Ok tt, add_network (map ingest_post (fst (drawn_logs env indices (rng w))))
              (set_rng (snd (drawn_logs env indices (rng w))) w)).
Proof.
  revert w. induction indices as [|i rest IH]; intros w.
  - simpl. unfold ret. now rewrite set_rng_same, add_network_nil.
  - simpl. unfold bind. rewrite burst_item_run, IH.
    unfold add_network, set_rng. simpl. now rewrite <- app_assoc.
Qed.

Lemma drawn_logs_length env (indices : list nat) (g : G) :
  List.length (fst (drawn_logs env indices g)) = List.length indices.
Proof.
  revert g. induction indices as [|i rest IH]; intros g; simpl; [reflexivity|].
  now rewrite IH.
Qed.

Lemma add_sidebar_add_sidebar (a b : list Element) w :
  add_sidebar b (add_sidebar a w) = add_sidebar (a ++ b) w.
Proof. unfold add_sidebar. simpl. now rewrite app_assoc. Qed.

Lemma rng_add_sidebar (es : list Element) w : rng (add_sidebar es w) = rng w.
Proof. reflexivity. Qed.

Lemma set_rng_add_sidebar (g : G) (es : list Element) w :
  set_rng g (add_sidebar es w) = add_sidebar es (set_rng g w).
Proof. reflexivity. Qed.

Lemma add_network_add_sidebar (rs : list Request) (es : list Element) w :
  add_network rs (add_sidebar es w) = add_sidebar es (add_network rs w).
Proof. reflexivity. Qed.

Lemma sidebar_block_run env w :
  sidebar_block env w = (Ok tt, after_sidebar env w).
Proof.
  unfold sidebar_block, after_sidebar, generate_burst, bind, emit_sidebar, ret.
  cbv beta iota zeta.
  destruct (button_pressed env).
  - rewrite burst_loop_run, !add_sidebar_add_sidebar, rng_add_sidebar.
    rewrite set_rng_add_sidebar, add_network_add_sidebar, add_sidebar_add_sidebar.
    reflexivity.
  - rewrite !add_sidebar_add_sidebar. reflexivity.
Qed.

Lemma session_after_sidebar env w : session (after_sidebar env w) = session w.
Proof. unfold after_sidebar. now destruct (button_pressed env). Qed.

Lemma page_after_sidebar env w : page (after_sidebar env w) = page w.
Proof. unfold after_sidebar. now destruct (button_pressed env). Qed.

Lemma history_before_fetch env (ss : SessionState) (g : G) :
  history (session (before_fetch env ss g)) = Some (buffer ss).
Proof. unfold before_fetch. now rewrite session_after_sidebar. Qed.

Lemma page_before_fetch env (ss : SessionState) (g : G) :
  page (before_fetch env ss g) = [AutoRefresh 5000].
Proof. unfold before_fetch. now rewrite page_after_sidebar. Qed.

(** *** Data fetching *)

Lemma new_entry_run (now : string) (data : json) w :
  new_entry now data w
  = (match derived_record now data with Some row => Ok row | None => Raise end, w).
Proof.
  unfold new_entry, derived_record, py_get, bind, ret, raise.
  destruct data; try reflexivity.
  simpl. destruct (py_mul100 _); reflexivity.
Qed.

Lemma data_fetching_run env w (df : DataFrame) :
  history (session w) = Some df ->
  data_fetching env w
  = match fetched env with
    | Some (data, row) =>
        (Ok data,
         set_session {| history := Some (tail 20 (df ++ [row])%list) |}
           (add_network [metrics_get] w))
    | None => (Stop, add_page [unreachable_notice] (add_network [metrics_get] w))
    end.
Proof.
  intros Hdf.
  unfold data_fetching, try_except, fetch_and_update, requests_get_json, bind, send.
  unfold fetched. fold metrics_get.
  destruct (metrics_response env metrics_get) as [|status [data|]]; try reflexivity.
  unfold ret. cbv beta iota. rewrite new_entry_run.
  destruct (derived_record (clock_hms env) data) as [row|]; [|reflexivity].
  unfold read_history, write_history. cbn [session add_network set_session].
  rewrite Hdf. reflexivity.
Qed.

(** *** Rules for [after] *)

Lemma after_ret {A : Type} (a : A) w Q : Q (Ok a) [] -> after (ret a) w Q.
Proof. intros HQ. exists []. now rewrite add_page_nil. Qed.

Lemma after_raise {A : Type} w (Q : Result A -> list Element -> Prop) :
  Q Raise [] -> after raise w Q.
Proof. intros HQ. exists []. now rewrite add_page_nil. Qed.

Lemma after_emit (e : Element) w Q : Q (Ok tt) [e] -> after (emit e) w Q.
Proof. intros HQ. now exists [e]. Qed.

Lemma after_of_option {A : Type} (o : option A) w Q :
  match o with Some a => Q (Ok a) [] | None => Q Raise [] end ->
  after (of_option o) w Q.
Proof. destruct o; [apply after_ret | apply after_raise]. Qed.

Lemma after_read_history w Q :
  match history (session w) with
  | Some df => Q (Ok df) []
  | None => Q Raise []
  end ->
  after read_history w Q.
Proof. unfold read_history. apply after_of_option. Qed.

Lemma after_py_get (d : dict) (key : string) (default : json) w Q :
  Q (Ok (dict_get d key default)) [] -> after (py_get (JObj d) key default) w Q.
Proof. apply after_ret. Qed.

Lemma after_format_fixed (digits : nat) (v : json) w Q :
  (if fixed_ok v then Q (Ok (Fixed digits v)) [] else Q Raise []) ->
  after (format_fixed digits v) w Q.
Proof.
  unfold format_fixed. destruct (fixed_ok v); [apply after_ret | apply after_raise].
Qed.

Lemma after_draw_chart env (chart : Element) w Q :
  (if chart_raises env chart then Q Raise [] else Q (Ok tt) [chart]) ->
  after (draw_chart env chart) w Q.
Proof.
  unfold draw_chart. destruct (chart_raises env chart);
    [apply after_raise | apply after_emit].
Qed.

Lemma after_bind {A B : Type} (c : Script A) (k : A -> Script B) w Q :
  after c w
    (fun r es =>
       match r with
       | Ok a => after (k a) (add_page es w) (fun r' es' => Q r' (es ++ es')%list)
       | Stop => Q Stop es
       | Raise => Q Raise es
       end) ->
  after (bind c k) w Q.
Proof.
  intros [es [Hw HQ]]. unfold after, bind.
  destruct (c w) as [[a| |] w1]; simpl in Hw, HQ; subst w1.
  - destruct HQ as [es' [Hw' HQ']]. exists (es ++ es')%list.
    now rewrite Hw', add_page_add_page.
  - now exists es.
  - now exists es.
Qed.

Lemma after_weaken {A : Type} (c : Script A) w (Q Q' : Result A -> list Element -> Prop) :
  after c w Q -> (forall r es, Q r es -> Q' r es) -> after c w Q'.
Proof. intros [es [Hw HQ]] Himp. exists es. auto. Qed.

Lemma after_for_each {A : Type} (P : Element -> Prop) (body : A -> Script unit)
    (l : list A) w :
  (forall x w', after (body x) w' (fun r es => Forall P es /\ r <> Stop)) ->
  after (for_each l body) w (fun r es => Forall P es /\ r <> Stop).
Proof.
  intros Hbody. revert w. induction l as [|x l IH]; intros w; simpl.
  - apply after_ret. split; [constructor | discriminate].
  - apply after_bind. eapply after_weaken; [apply Hbody|].
    intros [[]| |] es [HP Hr]; [|contradiction|].
    + eapply after_weaken; [apply IH|]. intros r es' [HP' Hr'].
      split; [apply Forall_app; auto | exact Hr'].
    + split; [exact HP | discriminate].
Qed.

(** *** The blocks of the main page *)

Ltac run_step :=
  first
    [ apply after_bind
    | apply after_emit
    | apply after_draw_chart
    | apply after_py_get
    | apply after_format_fixed
    | apply after_of_option
    | apply after_read_history
    | apply after_ret
    | apply after_raise ];
  cbv beta iota.

Ltac run_case :=
  match goal with
  | |- match ?o with Some _ => _ | None => _ end => destruct o
  | |- if ?b then _ else _ => destruct b
  | |- after (if ?b then _ else _) _ _ => destruct b
  end.

Ltac run_block := repeat first [run_step | run_case].

Ltac others :=
  cbn [app];
  repeat first
    [ assumption
    | apply Forall_nil
    | apply Forall_cons; [unfold above_incident_log; split; discriminate|]
    | apply Forall_app; split ].

Ltac close_block := split; [others | discriminate].

Lemma kpi_cards_run (d : dict) w :
  after (kpi_cards (JObj d)) w
    (fun r es => Forall above_incident_log es /\ r <> Stop).
Proof. unfold kpi_cards. run_block; close_block. Qed.

Lemma performance_trends_run env w :
  after (performance_trends env) w
    (fun r es => Forall above_incident_log es /\ r <> Stop).
Proof. unfold performance_trends. run_block; close_block. Qed.

Lemma latency_percentiles_run env (d : dict) w :
  after (latency_percentiles env (JObj d)) w
    (fun r es => Forall above_incident_log es /\ r <> Stop).
Proof. unfold latency_percentiles. run_block; close_block. Qed.

Lemma user_distribution_run env (d : dict) w :
  after (user_distribution env (JObj d)) w
    (fun r es => Forall above_incident_log es /\ r <> Stop).
Proof.
  unfold user_distribution. repeat run_step.
  destruct (dict_get d "per_user_requests" (JObj [])); cbn [py_truthy];
    run_block; close_block.
Qed.

Lemma for_each_show_alert (alerts : list string) w :
  for_each (map JStr alerts) show_alert w
  = (Ok tt, add_page (map alert_box alerts) w).
Proof.
  revert w. induction alerts as [|a alerts IH]; intros w.
  - simpl. unfold ret. now rewrite add_page_nil.
  - simpl. unfold bind, emit. rewrite IH, add_page_add_page. reflexivity.
Qed.






Lemma show_alert_run (alert : json) w :
  after (show_alert alert) w (fun r es => Forall (fun _ => True) es /\ r <> Stop).
Proof.
  destruct alert; unfold show_alert; run_step;
    (split; [repeat constructor | discriminate]).
Qed.

Lemma incident_log_any (d : dict) w :
  after (incident_log (JObj d)) w (fun r _ => r <> Stop).
Proof.
  unfold incident_log. run_block; try discriminate.
  eapply after_weaken; [apply (after_for_each (fun _ => True)), show_alert_run|].
  now intros r es [_ Hr].
Qed.

Ltac pass_with L :=
  apply after_bind; eapply after_weaken; [apply L|];
  let es := fresh "es" in
  let HP := fresh "HP" in
  let Hr := fresh "Hr" in
  intros [[]| |] es [HP Hr];
  [| contradiction | split; [discriminate | cbn [app]; eexists; reflexivity]].

Lemma main_ui_any env (d : dict) w :
  after (main_ui env (JObj d)) w
    (fun r es =>
       r <> Stop /\ exists rest, es = Title "AI API Real-Time Monitor" :: rest).
Proof.
  unfold main_ui.
  run_step. run_step.
  pass_with kpi_cards_run.
  run_step. run_step.
  pass_with (performance_trends_run env).
  run_step. run_step.
  pass_with (latency_percentiles_run env).
  pass_with (user_distribution_run env).
  run_step. run_step.
  apply after_bind. eapply after_weaken; [apply incident_log_any|].
  intros [[]| |] es3 Hlog;
    [| contradiction | split; [discriminate | cbn [app]; eexists; reflexivity]].
  run_step. split; [discriminate | cbn [app]; eexists; reflexivity].
Qed.

(** *** The whole run *)

Lemma fetched_object env (data : json) (row : Row) :
  fetched env = Some (data, row) ->
  exists d, data = JObj d /\ derived_record (clock_hms env) (JObj d) = Some row.
Proof.
  unfold fetched.
  destruct (metrics_response env metrics_get) as [|status [v|]]; try discriminate.
  destruct (derived_record (clock_hms env) v) as [r|] eqn:Hr; try discriminate.
  intros E. injection E as -> ->.
  destruct data; try discriminate. eauto.
Qed.

Lemma script_run env (ss : SessionState) (g : G) :
  run env ss g
  = match fetched env with
    | Some (data, row) =>
        main_ui env data
          (set_session {| history := Some (tail 20 (buffer ss ++ [row])%list) |}
             (add_network [metrics_get] (before_fetch env ss g)))
    | None =>
        (Stop, add_page [unreachable_notice]
                 (add_network [metrics_get] (before_fetch env ss g)))
    end.
Proof.
  unfold run, script, bind.
  assert (Hinit : init_history (start ss g)
                  = (Ok tt, set_session {| history := Some (buffer ss) |} (start ss g))).
  { destruct ss as [[df|]]; reflexivity. }
  rewrite Hinit. unfold emit. rewrite sidebar_block_run.
  fold (before_fetch env ss g).
  rewrite (data_fetching_run env _ _ (history_before_fetch env ss g)).
  destruct (fetched env) as [[data row]|]; reflexivity.
Qed.

Lemma session_after_run env (ss : SessionState) (g : G) :
  session (snd (run env ss g))
  = {| history := Some (next_buffer env (buffer ss)) |}.
Proof.
  rewrite script_run. unfold next_buffer.
  destruct (fetched env) as [[data row]|] eqn:Hf.
  - destruct (fetched_object _ _ _ Hf) as [d [-> _]].
    destruct (main_ui_any env d
                (set_session {| history := Some (tail 20 (buffer ss ++ [row])%list) |}
                   (add_network [metrics_get] (before_fetch env ss g))))
      as [es [Hw _]].
    rewrite Hw. reflexivity.
  - cbn [snd add_page add_network session]. unfold before_fetch.
    now rewrite session_after_sidebar.
Qed.

Lemma buffer_after_cycle env (st : SessionState * G) :
  buffer (fst (cycle env st)) = next_buffer env (buffer (fst st)).
Proof. unfold cycle. cbn [fst]. now rewrite session_after_run. Qed.

Lemma buffer_after_cycles (envs : list Env) (st : SessionState * G) :
  buffer (fst (cycles envs st))
  = fold_left (fun buf env => next_buffer env buf) envs (buffer (fst st)).
Proof.
  unfold cycles. revert st. induction envs as [|env envs IH]; intros st; simpl.
  - reflexivity.
  - now rewrite IH, buffer_after_cycle.
Qed.

(** *** The history buffer as a list *)

Lemma tail_short (n : nat) (df : DataFrame) :
  (List.length df <= n)%nat -> tail n df = df.
Proof.
  intros Hl. unfold tail. replace (List.length df - n)%nat with 0%nat by lia.
  reflexivity.
Qed.

Lemma tail_length (n : nat) (df : DataFrame) :
  List.length (tail n df) = Nat.min (List.length df) n.
Proof. unfold tail. rewrite length_skipn. lia. Qed.

Lemma tail_app_one (n : nat) (df : DataFrame) (row : Row) :
  (0 < n)%nat -> tail n (tail n df ++ [row]) = tail n (df ++ [row]).
Proof.
  intros Hn. destruct (Nat.le_gt_cases (List.length df) n) as [Hle|Hgt].
  - now rewrite (tail_short n df Hle).
  - unfold tail. rewrite !length_app, length_skipn. cbn [List.length].
    rewrite !skipn_app, skipn_skipn, length_skipn.
    replace (List.length df - (List.length df - n) + 1 - n)%nat with 1%nat by lia.
    replace (1 - (List.length df - (List.length df - n)))%nat with 0%nat by lia.
    replace (List.length df + 1 - n - List.length df)%nat with 0%nat by lia.
    replace (1 + (List.length df - n))%nat with (List.length df + 1 - n)%nat by lia.
    reflexivity.
Qed.

Lemma fold_next_buffer (envs : list Env) (df : DataFrame) :
  fold_left (fun buf env => next_buffer env buf) envs (tail 20 df)
  = tail 20 (df ++ records envs).
Proof.
  revert df. induction envs as [|env envs IH]; intros df; simpl.
  - now rewrite app_nil_r.
  - unfold next_buffer at 2. destruct (fetched env) as [[data row]|].
    + rewrite tail_app_one by lia. rewrite IH, <- app_assoc. reflexivity.
    + apply IH.
Qed.

Lemma records_all_fetched (envs : list Env) :
  Forall (fun env => fetched env <> None) envs ->
  List.length (records envs) = List.length envs.
Proof.
  induction 1 as [|env envs Hf _ IH]; simpl; [reflexivity|].
  destruct (fetched env) as [[data row]|]; [|contradiction].
  simpl. now rewrite IH.
Qed.

(** ** The claims *)

(** C1.  After N cycles whose fetch succeeds, starting from a new session,
    the history buffer holds min(N, 20) records: the last min(N, 20) derived
    records, in the order of the fetches.  A successful cycle that finds 20
    records drops the oldest one and keeps the other 19, in order, followed
    by the new record. *)
Theorem history_bounded (envs : list Env) (g : G) :
  Forall (fun env => fetched env <> None) envs ->
  let N := List.length envs in
  let buf := buffer (fst (cycles envs (new_session, g))) in
  List.length (records envs) = N
  /\ List.length buf = Nat.min N 20
  /\ buf = skipn (N - Nat.min N 20) (records envs)
  /\ (forall env ss g' data row,
        fetched env = Some (data, row) ->
        List.length (buffer ss) = 20%nat ->
        exists oldest rest,
          buffer ss = oldest :: rest
          /\ buffer (fst (cycle env (ss, g'))) = (rest ++ [row])%list).
Proof.
  intros Hall N buf.
  assert (Hrec : List.length (records envs) = N) by now apply records_all_fetched.
  assert (Hbuf : buf = tail 20 (records envs)).
  { unfold buf. rewrite buffer_after_cycles. cbn [fst buffer new_session history].
    change (@nil Row) with (tail 20 []) at 1. now rewrite fold_next_buffer. }
  split; [exact Hrec|]. split; [|split].
  - rewrite Hbuf, tail_length, Hrec. reflexivity.
  - rewrite Hbuf. unfold tail. rewrite Hrec. f_equal. lia.
  - intros env ss g' data row Hf Hlen.
    rewrite buffer_after_cycle. cbn [fst]. unfold next_buffer. rewrite Hf.
    destruct (buffer ss) as [|oldest rest]; [discriminate|].
    exists oldest, rest. split; [reflexivity|].
    unfold tail. rewrite length_app. cbn [List.length] in *.
    replace (S (List.length rest) + 1 - 20)%nat with 1%nat by lia. reflexivity.
Qed.

(** C3, as the code has it.  A cycle whose fetch fails (the request raises,
    the body does not parse, or the record cannot be built) leaves the
    history buffer as it found it, whatever it holds: no record appended,
    none dropped, and the session state of an initialised session is
    unchanged as a whole.  No snapshot is kept: the run stops after the
    backend-unreachable notice, and its page holds the timer and that notice
    alone, none of the cards an earlier cycle showed. *)
Theorem failed_fetch_changes_nothing (env : Env) (ss : SessionState) (g : G) :
  fetched env = None ->
  let w := snd (run env ss g) in
  buffer (session w) = buffer ss
  /\ (forall df, history ss = Some df -> session w = ss)
  /\ fst (run env ss g) = Stop
  /\ page w = [AutoRefresh 5000; unreachable_notice]
  /\ (forall label value, ~ In (Metric label value) (page w)).
Proof.
  intros Hf w.
  assert (Hpage : page w = [AutoRefresh 5000; unreachable_notice]).
  { unfold w. rewrite script_run, Hf. cbn [snd add_page add_network page].
    now rewrite page_before_fetch. }
  split; [|split; [|split; [|split]]].
  - unfold w. rewrite session_after_run. unfold next_buffer. now rewrite Hf.
  - intros df Hdf. unfold w. rewrite session_after_run. unfold next_buffer, buffer.
    rewrite Hf, Hdf. destruct ss as [h]. simpl in Hdf. now rewrite Hdf.
  - rewrite script_run, Hf. reflexivity.
  - exact Hpage.
  - intros label value. rewrite Hpage. intros [Hin|[Hin|[]]]; discriminate.
Qed.

Lemma fetched_reply env (status : Z) (d : dict) (percent : json) :
  metrics_response env metrics_get = HttpReply status (Some (JObj d)) ->
  py_mul100 (dict_get d "error_rate" (JFloat 0)) = Some percent ->
  fetched env
  = Some (JObj d,
          {| Time := clock_hms env;
             Throughput := dict_get d "requests_per_min" (JInt 0);
             ErrorRate := percent |}).
Proof.
  intros Hr Hp. unfold fetched, derived_record. now rewrite Hr, Hp.
Qed.

(** C5.  The record a successful fetch appends is a function of the clock
    reading and the payload: its throughput is the payload's
    requests_per_min and its error rate is the payload's error_rate times
    100.  Three fetches with throughputs 10, 20, 15 and error rates 0.01,
    0.05, 0.02 leave a buffer of three records with throughputs 10, 20, 15
    and error rates 1.0, 5.0, 2.0, in that order. *)
Theorem record_derived (env : Env) (ss : SessionState) (g : G)
    (status : Z) (d : dict) (percent : json) :
  metrics_response env metrics_get = HttpReply status (Some (JObj d)) ->
  py_mul100 (dict_get d "error_rate" (JFloat 0)) = Some percent ->
  buffer (session (snd (run env ss g)))
    = tail 20 (buffer ss
               ++ [{| Time := clock_hms env;
                      Throughput := dict_get d "requests_per_min" (JInt 0);
                      ErrorRate := percent |}])
  /\ (forall f, dict_get d "error_rate" (JFloat 0) = JFloat f ->
                percent = JFloat (f * 100)%float)
  /\ (forall z, dict_get d "error_rate" (JFloat 0) = JInt z ->
                percent = JInt (z * 100))
  /\ (forall env1 env2 env3 g0,
        let envs := [answering (reading 10 0.01) env1;
                     answering (reading 20 0.05) env2;
                     answering (reading 15 0.02) env3] in
        let buf := buffer (fst (cycles envs (new_session, g0))) in
        map Throughput buf = [JInt 10; JInt 20; JInt 15]
        /\ map ErrorRate buf = [JFloat 1; JFloat 5; JFloat 2]).
Proof.
  intros Hr Hp. split; [|split; [|split]].
  - rewrite session_after_run. unfold next_buffer.
    now rewrite (fetched_reply env status d percent Hr Hp).
  - intros f Hf. rewrite Hf in Hp. simpl in Hp. congruence.
  - intros z Hz. rewrite Hz in Hp. simpl in Hp. congruence.
  - intros env1 env2 env3 g0 envs buf. unfold buf, envs.
    rewrite buffer_after_cycles. split; reflexivity.
Qed.

(** C9.  The value of the sensitivity slider has no effect on a run: the
    session state, the page, the requests sent and the way the run ends are
    the same for any two values, and so is every sequence of cycles. *)
Theorem sensitivity_has_no_effect (k1 k2 : float) (env : Env)
    (ss : SessionState) (g : G) :
  run (with_slider k1 env) ss g = run (with_slider k2 env) ss g
  /\ fetched (with_slider k1 env) = fetched (with_slider k2 env)
  /\ (forall envs st,
        cycles (map (with_slider k1) envs) st
        = cycles (map (with_slider k2) envs) st).
Proof.
  split; [reflexivity|]. split; [reflexivity|].
  intros envs. unfold cycles.
  induction envs as [|e envs IH]; intros st; simpl; [reflexivity|].
  now rewrite IH.
Qed.

Lemma alert_box_shown (alert : string) : shown_with_severity alert (alert_box alert).
Proof.
  unfold shown_with_severity, alert_box, classify.
  destruct (contains "CRITICAL" (upper alert)); auto.
Qed.


(** C2, as the code has it.  The loop over a sequence of anomaly strings
    writes one box per string, in the order of the sequence: an error box
    (Critical) exactly for the strings whose upper-case form holds CRITICAL,
    a warning box (Warning) for the others; an empty sequence writes
    nothing.  For a string of ASCII characters, Critical means that the
    string contains CRITICAL up to the case of its letters. *)
Theorem anomalies_classified (alerts : list string) (w : @World G) :
  for_each (map JStr alerts) show_alert w
    = (Ok tt, add_page (map alert_box alerts) w)
  /\ List.length (map alert_box alerts) = List.length alerts
  /\ Forall2
       (fun alert box =>
          shown_with_severity alert box
          /\ (classify alert = Critical <-> contains "CRITICAL" (upper alert) = true)
          /\ (classify alert = Warning <-> contains "CRITICAL" (upper alert) = false)
          /\ (isascii alert = true ->
              (classify alert = Critical <-> contains_ignoring_case "CRITICAL" alert)))
       alerts (map alert_box alerts)
  /\ map classify ["CRITICAL: error rate 40%"; "latency above baseline"; "critical error"]
     = [Critical; Warning; Critical]
  /\ for_each (map JStr []) show_alert w = (Ok tt, w).
Proof.
  split; [apply for_each_show_alert|].
  split; [apply length_map|].
  split; [|split; reflexivity].
  induction alerts as [|a alerts IH]; simpl; constructor; [|exact IH].
  split; [apply alert_box_shown|].
  split; [|split; [|apply classify_isascii]];
    unfold classify; destruct (contains "CRITICAL" (upper a)); split; congruence.
Qed.

(** *** The logs of a burst *)

Lemma drawn_log_in_range env (i : nat) (g : G) :
  log_in_range (fst (drawn_log env i g)).
Proof.
  unfold log_in_range, drawn_log. cbn [fst user_id latency_ms tokens_used is_error].
  pose proof (randbelow_range 3 g eq_refl) as H1.
  pose proof (randbelow_range 1401 (snd (randbelow 3 g)) eq_refl) as H2.
  pose proof (randbelow_range 1951 (snd (randbelow 1401 (snd (randbelow 3 g)))) eq_refl)
    as H3.
  repeat split; try lia.
  - assert (Hk : fst (randbelow 3 g) = 0 \/ fst (randbelow 3 g) = 1
                 \/ fst (randbelow 3 g) = 2) by lia.
    destruct Hk as [-> | [-> | ->]]; simpl; auto.
  - eexists. reflexivity.
Qed.

Lemma drawn_logs_in_range env (indices : list nat) (g : G) :
  Forall log_in_range (fst (drawn_logs env indices g)).
Proof.
  revert g. induction indices as [|i rest IH]; intros g; simpl; constructor.
  - apply drawn_log_in_range.
  - apply IH.
Qed.

Lemma drawn_logs_post_raises (raises : nat -> Request -> bool) env
    (indices : list nat) (g : G) :
  drawn_logs (with_post_raises raises env) indices g = drawn_logs env indices g.
Proof.
  revert g. induction indices as [|i rest IH]; intros g; simpl; [reflexivity|].
  now rewrite IH.
Qed.

(** C7.  When the burst button is pressed the run posts exactly 30 logs to
    the ingest endpoint, each with a timeout of 1, before it fetches the
    metrics.  Every log has a user of the three fixed ones, a latency in
    [100, 1500], a token count in [50, 2000], and an error flag that is the
    test [random() < 0.08] on a draw of the generator.  Whether a post raises
    changes nothing of the run, and the sidebar ends with the confirmation
    and shows no error. *)
Theorem burst_sends_thirty (env : Env) (ss : SessionState) (g : G) :
  button_pressed env = true ->
  let w := snd (run env ss g) in
  let logs := fst (drawn_logs env (seq 0 30) g) in
  network w
    = (map (fun log => Post "http://localhost:8000/ingest" log 1) logs
       ++ [Get "http://localhost:8000/metrics" 3])%list
  /\ List.length logs = 30%nat
  /\ Forall log_in_range logs
  /\ sidebar w = (settings_panel ++ [burst_notice])%list
  /\ (forall raises, run (with_post_raises raises env) ss g = run env ss g).
Proof.
  intros Hb w logs.
  assert (Hw : exists es ss', w = add_page es
             (set_session ss'
                (add_network [metrics_get] (before_fetch env ss g)))).
  { unfold w. rewrite script_run.
    destruct (fetched env) as [[data row]|] eqn:Hf.
    - destruct (fetched_object _ _ _ Hf) as [d [-> _]].
      destruct (main_ui_any env d
                  (set_session {| history := Some (tail 20 (buffer ss ++ [row])) |}
                     (add_network [metrics_get] (before_fetch env ss g))))
        as [es [Hes _]].
      exists es. eexists. exact Hes.
    - exists [unreachable_notice].
      exists (session (add_network [metrics_get] (before_fetch env ss g))).
      now rewrite set_session_same. }
  destruct Hw as [es [ss' Hw]].
  split; [|split; [|split; [|split]]].
  - rewrite Hw. cbn [network add_page set_session add_network].
    unfold before_fetch, after_sidebar. rewrite Hb. reflexivity.
  - unfold logs. now rewrite drawn_logs_length, length_seq.
  - apply drawn_logs_in_range.
  - rewrite Hw. cbn [sidebar add_page set_session add_network].
    unfold before_fetch, after_sidebar. rewrite Hb. reflexivity.
  - intros raises. rewrite !script_run.
    unfold before_fetch, after_sidebar.
    cbn [button_pressed with_post_raises].
    rewrite drawn_logs_post_raises. reflexivity.
Qed.

(** *** The incident log *)





(** *** What a run depends on *)

Lemma drawn_logs_ext env env' (indices : list nat) (g : G) :
  utcnow_iso env = utcnow_iso env' ->
  drawn_logs env indices g = drawn_logs env' indices g.
Proof.
  intros He. revert g. induction indices as [|i rest IH]; intros g; simpl.
  - reflexivity.
  - unfold drawn_log. now rewrite He, IH.
Qed.

Lemma before_fetch_ext env env' (ss : SessionState) (g : G) :
  button_pressed env = button_pressed env' ->
  utcnow_iso env = utcnow_iso env' ->
  before_fetch env ss g = before_fetch env' ss g.
Proof.
  intros Hb Hu. unfold before_fetch, after_sidebar.
  now rewrite Hb, (drawn_logs_ext env env' _ _ Hu).
Qed.

Lemma main_ui_env env env' (data : json) :
  clock_full env = clock_full env' ->
  chart_raises env = chart_raises env' ->
  sort_by_requests env = sort_by_requests env' ->
  @main_ui G env data = main_ui env' data.
Proof.
  intros Hc Hr Hs.
  unfold main_ui, performance_trends, latency_percentiles, user_distribution,
    draw_chart.
  now rewrite Hc, Hr, Hs.
Qed.

Lemma run_not_stopped env (ss : SessionState) (g : G) (data : json) (row : Row) :
  fetched env = Some (data, row) ->
  fst (run env ss g) <> Stop
  /\ exists rest,
       page (snd (run env ss g))
       = AutoRefresh 5000 :: Title "AI API Real-Time Monitor" :: rest.
Proof.
  intros Hf. rewrite script_run, Hf.
  destruct (fetched_object _ _ _ Hf) as [d [-> _]].
  destruct (main_ui_any env d
              (set_session {| history := Some (tail 20 (buffer ss ++ [row])) |}
                 (add_network [metrics_get] (before_fetch env ss g))))
    as [es [Hw [Hr [rest ->]]]].
  split; [exact Hr|]. exists rest. rewrite Hw.
  cbn [page add_page set_session add_network]. now rewrite page_before_fetch.
Qed.

Lemma stopped_iff env (ss : SessionState) (g : G) :
  fst (run env ss g) = Stop <-> fetched env = None.
Proof.
  split.
  - intros Hs. destruct (fetched env) as [[data row]|] eqn:Hf; [|reflexivity].
    now destruct (run_not_stopped env ss g data row Hf).
  - intros Hf. rewrite script_run, Hf. reflexivity.
Qed.

Lemma derived_record_none (now : string) (data : json) :
  derived_record now data = None <->
  (forall d, data <> JObj d)
  \/ exists d, data = JObj d
       /\ (dict_get d "error_rate" (JFloat 0) = JNull
           \/ exists o, dict_get d "error_rate" (JFloat 0) = JObj o).
Proof.
  split.
  - destruct data as [| | | | | |d]; try (intros _; left; intros d'; discriminate).
    unfold derived_record. intros Hd. right. exists d. split; [reflexivity|].
    destruct (dict_get d "error_rate" (JFloat 0)); try discriminate; eauto.
  - intros [Hno | [d [-> [He | [o He]]]]].
    + destruct data; try reflexivity. now destruct (Hno items).
    + unfold derived_record. now rewrite He.
    + unfold derived_record. now rewrite He.
Qed.

(** C10, as the code has it.  The backend-unreachable branch is taken exactly
    when the request raises, the body is not valid JSON, the body is JSON
    but not an object, or the object's error_rate is null or an object (so
    that it cannot be multiplied by 100).  In every other case the fetch
    succeeds whatever the HTTP status: the record is appended and the main
    page is begun.  The status of a response has no effect on the run. *)
Theorem unreachable_branch (env : Env) (ss : SessionState) (g : G) :
  (fst (run env ss g) = Stop <-> fetched env = None)
  /\ (fetched env = None <->
        metrics_response env metrics_get = ConnectionFailed
        \/ (exists status, metrics_response env metrics_get = HttpReply status None)
        \/ (exists status data,
              metrics_response env metrics_get = HttpReply status (Some data)
              /\ forall d, data <> JObj d)
        \/ (exists status d,
              metrics_response env metrics_get = HttpReply status (Some (JObj d))
              /\ (dict_get d "error_rate" (JFloat 0) = JNull
                  \/ exists o, dict_get d "error_rate" (JFloat 0) = JObj o)))
  /\ (forall data row,
        fetched env = Some (data, row) ->
        buffer (session (snd (run env ss g))) = tail 20 (buffer ss ++ [row])
        /\ exists rest,
             page (snd (run env ss g))
             = AutoRefresh 5000 :: Title "AI API Real-Time Monitor" :: rest)
  /\ (forall status1 status2 body,
        run (with_response (HttpReply status1 body) env) ss g
        = run (with_response (HttpReply status2 body) env) ss g).
Proof.
  split; [apply stopped_iff|]. split; [|split].
  - unfold fetched.
    destruct (metrics_response env metrics_get) as [|status [data|]].
    + split; auto.
    + destruct (derived_record (clock_hms env) data) as [row|] eqn:Hd.
      * split; [discriminate|].
        intros [Hc | [[s Hc] | [[s [v [Hc Hno]]] | [s [d [Hc He]]]]]];
          try discriminate; injection Hc as _ Hdata; subst data.
        -- assert (Hn : derived_record (clock_hms env) v = None)
             by (apply derived_record_none; now left).
           congruence.
        -- assert (Hn : derived_record (clock_hms env) (JObj d) = None)
             by (apply derived_record_none; right; eauto).
           congruence.
      * split; [|reflexivity]. intros _.
        apply derived_record_none in Hd as [Hno | [d [-> He]]].
        -- right; right; left. eauto.
        -- right; right; right. eauto.
    + split; [|reflexivity]. intros _. right; left. eauto.
  - intros data row Hf. split.
    + rewrite session_after_run. unfold next_buffer. now rewrite Hf.
    + now destruct (run_not_stopped env ss g data row Hf).
  - intros status1 status2 body. rewrite !script_run.
    rewrite (before_fetch_ext (with_response (HttpReply status1 body) env)
               (with_response (HttpReply status2 body) env)) by reflexivity.
    change (fetched (with_response (HttpReply status1 body) env))
      with (fetched (with_response (HttpReply status2 body) env)).
    destruct (fetched (with_response (HttpReply status2 body) env)) as [[data row]|];
      [|reflexivity].
    now rewrite (main_ui_env (with_response (HttpReply status1 body) env)
                   (with_response (HttpReply status2 body) env)).
Qed.

(** *** What a page drawn to its end needs *)

Ltac ok_case :=
  match goal with
  | |- match ?o with Some _ => _ | None => _ end => destruct o eqn:?
  | |- if ?b then _ else _ => destruct b eqn:?
  | |- after (if ?b then _ else _) _ _ => destruct b eqn:?
  end.

Ltac ok_block := repeat first [run_step | ok_case].

Lemma kpi_cards_ok (d : dict) w :
  after (kpi_cards (JObj d)) w
    (fun r _ =>
       r <> Stop
       /\ (r = Ok tt <->
           percent_ok (dict_get d "error_rate" (JFloat 0))
           && fixed_ok (dict_get d "p95_latency" (JInt 0))
           && fixed_ok (dict_get d "estimated_cost_usd" (JFloat 0)) = true)).
Proof.
  unfold kpi_cards, percent_ok. ok_block;
    (split; [discriminate|]);
    repeat match goal with E : _ = _ |- _ => rewrite E; clear E end;
    simpl; split; congruence.
Qed.

Lemma session_add_page (es : list Element) w : session (add_page es w) = session w.
Proof. reflexivity. Qed.

Lemma user_distribution_ok env (d : dict) w :
  after (user_distribution env (JObj d)) w
    (fun r _ =>
       r <> Stop
       /\ (r = Ok tt -> users_ok (dict_get d "per_user_requests" (JObj [])) = true)).
Proof.
  unfold user_distribution, users_ok. repeat run_step.
  destruct (dict_get d "per_user_requests" (JObj [])); cbn [py_truthy];
    ok_block; (split; [discriminate|]); congruence.
Qed.

Lemma for_each_show_alert_ok (alerts : list json) w :
  after (for_each alerts show_alert) w
    (fun r _ => r <> Stop /\ (r = Ok tt <-> forallb is_str alerts = true)).
Proof.
  revert w. induction alerts as [|a alerts IH]; intros w; simpl.
  - run_step. split; [discriminate|]. split; reflexivity.
  - run_step. destruct a; unfold show_alert; run_step;
      try (split; [discriminate|]; simpl; split; discriminate).
    eapply after_weaken; [apply IH|]. intros r es Hr. exact Hr.
Qed.

Lemma incident_log_ok (d : dict) w :
  after (incident_log (JObj d)) w
    (fun r _ =>
       r <> Stop
       /\ (r = Ok tt <-> alerts_ok (dict_get d "anomalies" (JArr [])) = true)).
Proof.
  unfold incident_log, alerts_ok. repeat run_step.
  destruct (py_truthy (dict_get d "anomalies" (JArr []))).
  - run_step. run_step.
    destruct (py_iter (dict_get d "anomalies" (JArr []))) as [alerts|].
    + eapply after_weaken; [apply for_each_show_alert_ok|].
      intros r es Hr. exact Hr.
    + split; [discriminate|]. split; discriminate.
  - run_step. split; [discriminate|]. split; reflexivity.
Qed.

(** Goes on after a block that [L] describes, when only a run that ends
    normally matters. *)
Ltac skip_with L :=
  apply after_bind; eapply after_weaken; [apply L|];
  let es := fresh "es" in
  let HP := fresh "HP" in
  let Hr := fresh "Hr" in
  intros [[]| |] es [HP Hr]; [| contradiction | discriminate].

Lemma main_ui_ok env (d : dict) w :
  after (main_ui env (JObj d)) w (fun r _ => r = Ok tt -> page_ok d = true).
Proof.
  unfold main_ui, page_ok.
  run_step. run_step.
  apply after_bind. eapply after_weaken; [apply kpi_cards_ok|].
  intros [[]| |] es [Hns Hkpi]; [|contradiction|discriminate].
  rewrite (proj1 Hkpi eq_refl). cbn [andb].
  run_step. run_step.
  skip_with (performance_trends_run env).
  run_step. run_step.
  skip_with (latency_percentiles_run env).
  apply after_bind. eapply after_weaken; [apply user_distribution_ok|].
  intros [[]| |] es2 [Hns2 Husers]; [|contradiction|discriminate].
  rewrite (Husers eq_refl). cbn [andb].
  run_step. run_step.
  apply after_bind. eapply after_weaken; [apply incident_log_ok|].
  intros [[]| |] es3 [Hns3 Halerts]; [|contradiction|discriminate].
  rewrite (proj1 Halerts eq_refl).
  run_step. reflexivity.
Qed.

Lemma run_ok_page_ok env (ss : SessionState) (g : G) (status : Z) (d : dict) :
  metrics_response env metrics_get = HttpReply status (Some (JObj d)) ->
  fst (run env ss g) = Ok tt -> page_ok d = true.
Proof.
  intros Hr. rewrite script_run. unfold fetched, derived_record. rewrite Hr.
  destruct (py_mul100 (dict_get d "error_rate" (JFloat 0))) as [percent|] eqn:Hp.
  - destruct (main_ui_ok env d
                (set_session
                   {| history :=
                        Some (tail 20
                                (buffer ss
                                 ++ [{| Time := clock_hms env;
                                        Throughput := dict_get d "requests_per_min" (JInt 0);
                                        ErrorRate := percent |}])) |}
                   (add_network [metrics_get] (before_fetch env ss g))))
      as [es [_ Himp]].
    exact Himp.
  - discriminate.
Qed.

(** *** Absent fields *)

Lemma py_get_defaults (d : dict) (key : string) (default : json) :
  dict_get default_fields key default = default ->
  @py_get G (JObj (with_defaults d)) key default = py_get (JObj d) key default.
Proof.
  intros Hd. unfold py_get, with_defaults. now rewrite dict_get_app, Hd.
Qed.

Lemma derived_record_defaults (now : string) (d : dict) :
  derived_record now (JObj (with_defaults d)) = derived_record now (JObj d).
Proof.
  unfold derived_record, with_defaults. rewrite !dict_get_app. reflexivity.
Qed.

Lemma main_ui_defaults env (d : dict) w :
  main_ui env (JObj (with_defaults d)) w = main_ui env (JObj d) w.
Proof.
  unfold main_ui, kpi_cards, latency_percentiles, user_distribution, incident_log.
  rewrite !py_get_defaults by reflexivity. reflexivity.
Qed.

Lemma run_with_response env (ss : SessionState) (g : G) :
  run (with_response (metrics_response env metrics_get) env) ss g = run env ss g.
Proof.
  rewrite !script_run.
  rewrite (before_fetch_ext (with_response (metrics_response env metrics_get) env) env)
    by reflexivity.
  change (fetched (with_response (metrics_response env metrics_get) env))
    with (fetched env).
  destruct (fetched env) as [[data row]|]; [|reflexivity].
  now rewrite (main_ui_env (with_response (metrics_response env metrics_get) env) env).
Qed.

Lemma run_defaults env (ss : SessionState) (g : G) (status : Z) (d : dict) :
  run (with_response (HttpReply status (Some (JObj (with_defaults d)))) env) ss g
  = run (with_response (HttpReply status (Some (JObj d))) env) ss g.
Proof.
  rewrite !script_run.
  rewrite (before_fetch_ext
             (with_response (HttpReply status (Some (JObj (with_defaults d)))) env)
             (with_response (HttpReply status (Some (JObj d))) env)) by reflexivity.
  unfold fetched. cbn [metrics_response with_response clock_hms].
  rewrite derived_record_defaults.
  destruct (derived_record (clock_hms env) (JObj d)) as [row|]; [|reflexivity].
  rewrite main_ui_defaults.
  now rewrite (main_ui_env
                 (with_response (HttpReply status (Some (JObj (with_defaults d)))) env)
                 (with_response (HttpReply status (Some (JObj d))) env)).
Qed.

(** C4, as the code has it.  For a payload that is a JSON object: a field
    the payload lacks reads as its default, and the run is the run on the
    payload with every absent field written out as zero, the empty mapping
    or the empty sequence.  Taking a field away never makes the fetch fail,
    and the empty payload is fetched: its record, with throughput 0 and
    error rate 0.0, is appended.  The fetch of an object payload fails
    exactly when its error_rate is null or an object. *)
Theorem absent_fields_default (env : Env) (ss : SessionState) (g : G)
    (status : Z) (d : dict) :
  metrics_response env metrics_get = HttpReply status (Some (JObj d)) ->
  let payload d' := with_response (HttpReply status (Some (JObj d'))) env in
  (forall key default, dict_has d key = false -> dict_get d key default = default)
  /\ run (payload (with_defaults d)) ss g = run env ss g
  /\ (forall key,
        fst (run env ss g) <> Stop ->
        fst (run (payload (dict_del d key)) ss g) <> Stop)
  /\ (fst (run (payload []) ss g) <> Stop
      /\ buffer (session (snd (run (payload []) ss g)))
         = tail 20 (buffer ss
                    ++ [{| Time := clock_hms env;
                           Throughput := JInt 0;
                           ErrorRate := JFloat 0 |}]))
  /\ (fst (run env ss g) = Stop <->
        dict_get d "error_rate" (JFloat 0) = JNull
        \/ exists o, dict_get d "error_rate" (JFloat 0) = JObj o).
Proof.
  intros Hr payload.
  assert (Hstop : forall env' d',
             metrics_response env' metrics_get = HttpReply status (Some (JObj d')) ->
             (fst (run env' ss g) = Stop <->
              dict_get d' "error_rate" (JFloat 0) = JNull
              \/ exists o, dict_get d' "error_rate" (JFloat 0) = JObj o)).
  { intros env' d' Hr'. rewrite stopped_iff. unfold fetched. rewrite Hr'.
    destruct (derived_record (clock_hms env') (JObj d')) as [row|] eqn:Hd.
    - split; [discriminate|]. intros He.
      assert (Hn : derived_record (clock_hms env') (JObj d') = None).
      { apply derived_record_none. right. eauto. }
      congruence.
    - split; [|reflexivity]. intros _.
      apply derived_record_none in Hd as [Hno | [d0 [E He]]].
      + now destruct (Hno d').
      + injection E as <-. exact He. }
  split; [intros key default; apply dict_get_absent|].
  split; [|split; [|split]].
  - unfold payload. rewrite run_defaults, <- Hr. apply run_with_response.
  - intros key Hns Hs. apply Hns.
    apply (Hstop (payload (dict_del d key)) (dict_del d key) eq_refl) in Hs.
    apply (Hstop env d Hr). rewrite dict_get_del in Hs.
    destruct (String.eqb "error_rate" key); [|exact Hs].
    destruct Hs as [Hs | [o Hs]]; discriminate.
  - split.
    + intros Hs. apply stopped_iff in Hs. discriminate Hs.
    + rewrite session_after_run. reflexivity.
  - now apply Hstop.
Qed.

End Running.

(** ** The claims on sample inputs *)

#[local] Existing Instance counter.

Local Open Scope list_scope.

Example classify_disk_full : classify "CRITICAL: disk full" = Critical.
Proof. reflexivity. Qed.

Example classify_latency_spike : classify "latency spike" = Warning.
Proof. reflexivity. Qed.

Example classify_lower_case : classify "critical error" = Critical.
Proof. reflexivity. Qed.

Example upper_beyond_ascii : upper "straße, café, ﬁn" = "STRASSE, CAFÉ, FIN".
Proof. reflexivity. Qed.

Example sample_sort_ascending :
  sample_sort [("bob_002", JInt 5); ("alice_001", JInt 2); ("charlie_003", JInt 5)]
  = Some [("alice_001", JInt 2); ("bob_002", JInt 5); ("charlie_003", JInt 5)].
Proof. reflexivity. Qed.

Example user_panel_of_two_users :
  user_distribution (sample_env ConnectionFailed)
    (JObj [("per_user_requests", JObj [("bob_002", JInt 5); ("alice_001", JInt 2)])])
    (start new_session 0)
  = (Ok tt,
     add_page [Subheader " User Distribution";
               UserChart [("alice_001", JInt 2); ("bob_002", JInt 5)]]
       (start new_session 0)).
Proof. reflexivity. Qed.

Example incident_log_of_two_anomalies :
  incident_boxes ["CRITICAL: error rate 40%"; "latency above baseline"]
  = [ErrorBox "🔴 CRITICAL: error rate 40%";
     WarningBox "🟡 latency above baseline"].
Proof. reflexivity. Qed.

Lemma history_bounded_witness :
  Forall (fun env => fetched env <> None) twenty_one_fetches
  /\ List.length (buffer (fst (cycles twenty_one_fetches (new_session, 0)))) = 20%nat.
Proof.
  assert (Hall : Forall (fun env => fetched env <> None) twenty_one_fetches).
  { unfold twenty_one_fetches. simpl repeat.
    repeat constructor; intros Hn; vm_compute in Hn; discriminate Hn. }
  split; [exact Hall|].
  exact (proj1 (proj2 (history_bounded twenty_one_fetches 0 Hall))).
Defined.

Lemma failed_fetch_changes_nothing_witness :
  fetched (sample_env ConnectionFailed) = None
  /\ session (snd (run (sample_env ConnectionFailed) one_record_session 0))
     = one_record_session
  /\ page (snd (run (sample_env ConnectionFailed) one_record_session 0))
     = [AutoRefresh 5000; unreachable_notice].
Proof.
  pose proof (failed_fetch_changes_nothing (sample_env ConnectionFailed)
                one_record_session 0 eq_refl) as Hfail.
  split; [reflexivity|]. split.
  - exact (proj1 (proj2 Hfail) _ eq_refl).
  - exact (proj1 (proj2 (proj2 (proj2 Hfail)))).
Defined.

(** C3, as it is worded, fails: no snapshot is retained.  A cycle that
    fetches a snapshot shows its cards; the failing cycle that follows in the
    same session shows the notice alone, and nothing of that snapshot, while
    the history is as the first cycle left it. *)
Lemma prior_snapshot_is_not_retained :
  let card := Metric "Throughput" (Cat (Str (JInt 10)) (Lit " RPM")) in
  let first := run (sample_env (HttpReply 200 (Some (reading 10 0.01)))) new_session 0 in
  let second :=
    run (sample_env ConnectionFailed) (session (snd first)) (rng (snd first)) in
  fetched (sample_env ConnectionFailed) = None
  /\ fst first = Ok tt
  /\ In card (page (snd first))
  /\ fst second = Stop
  /\ page (snd second) = [AutoRefresh 5000; unreachable_notice]
  /\ ~ In card (page (snd second))
  /\ session (snd second) = session (snd first).
Proof. vm_compute. intuition congruence. Qed.

(** C2, as it is worded, fails: the text [crıtıcal error], written with the
    dotless i (U+0131), does not contain CRITICAL under case-insensitive
    comparison, yet it is shown as critical, because the upper-case form of
    the dotless i is the letter I. *)
Lemma dotless_i_is_critical :
  let alert := "crıtıcal error" in
  ~ contains_ignoring_case "CRITICAL" alert
  /\ upper alert = "CRITICAL ERROR"
  /\ classify alert = Critical
  /\ for_each [JStr alert] show_alert (start new_session 0)
     = (Ok tt, add_page [ErrorBox ("🔴 " ++ alert)] (start new_session 0)).
Proof.
  cbv zeta. split; [|split; [|split]]; try reflexivity.
  intros Hc. apply contains_ignoring_case_iff in Hc; [|reflexivity].
  vm_compute in Hc. discriminate Hc.
Qed.

Lemma record_derived_witness :
  metrics_response (sample_env (HttpReply 200 (Some (reading 10 0.01)))) metrics_get
    = HttpReply 200 (Some (reading 10 0.01))
  /\ buffer (session (snd (run (sample_env (HttpReply 200 (Some (reading 10 0.01))))
                            new_session 0)))
     = [{| Time := "12:00:00"; Throughput := JInt 10; ErrorRate := JFloat 1 |}].
Proof.
  split; [reflexivity|].
  exact (proj1 (record_derived (sample_env (HttpReply 200 (Some (reading 10 0.01))))
                  new_session 0 200
                  [("requests_per_min", JInt 10); ("error_rate", JFloat 0.01)]
                  (JFloat 1) eq_refl eq_refl)).
Defined.

Lemma burst_sends_thirty_witness :
  button_pressed pressed_env = true
  /\ List.length (fst (drawn_logs pressed_env (seq 0 30) 0)) = 30%nat
  /\ sidebar (snd (run pressed_env new_session 0))
     = settings_panel ++ [burst_notice].
Proof.
  split; [reflexivity|].
  pose proof (burst_sends_thirty pressed_env new_session 0 eq_refl) as Hburst.
  split.
  - exact (proj1 (proj2 Hburst)).
  - exact (proj1 (proj2 (proj2 (proj2 Hburst)))).
Defined.



Lemma absent_fields_default_witness :
  metrics_response (sample_env (HttpReply 200 (Some (JObj [])))) metrics_get
    = HttpReply 200 (Some (JObj []))
  /\ run (with_response (HttpReply 200 (Some (JObj (with_defaults []))))
            (sample_env (HttpReply 200 (Some (JObj [])))))
       new_session 0
     = run (sample_env (HttpReply 200 (Some (JObj [])))) new_session 0.
Proof.
  split; [reflexivity|].
  exact (proj1 (proj2
           (absent_fields_default (sample_env (HttpReply 200 (Some (JObj []))))
              new_session 0 200 [] eq_refl))).
Defined.

(** C4, as the specification words it, fails: the payload
    [{"error_rate": null}] arrives and parses, yet the fetch fails and the
    backend-unreachable branch is taken, because [None * 100] raises. *)
Lemma null_error_rate_fails_the_fetch :
  let env := sample_env (HttpReply 200 (Some (JObj [("error_rate", JNull)]))) in
  metrics_response env metrics_get
    = HttpReply 200 (Some (JObj [("error_rate", JNull)]))
  /\ fst (run env new_session 0) = Stop
  /\ page (snd (run env new_session 0)) = [AutoRefresh 5000; unreachable_notice]
  /\ buffer (session (snd (run env new_session 0))) = [].
Proof. vm_compute. repeat split. Qed.

(** C10, as it is worded, fails: a response whose body is the JSON array
    [[]] parses as JSON, yet the backend-unreachable branch is taken and no
    record is appended, because a list has no [get]. *)
Lemma json_array_body_is_unreachable :
  let env := sample_env (HttpReply 200 (Some (JArr []))) in
  metrics_response env metrics_get = HttpReply 200 (Some (JArr []))
  /\ fst (run env new_session 0) = Stop
  /\ page (snd (run env new_session 0)) = [AutoRefresh 5000; unreachable_notice]
  /\ buffer (session (snd (run env new_session 0))) = [].
Proof. vm_compute. repeat split. Qed.

(** ** Beyond the claims *)

Section Beyond.

Context {G : Type} `{PyRandom G}.

Implicit Types (w : @World G) (env : Env).

Ltac run_step :=
  first
    [ apply after_bind
    | apply after_emit
    | apply after_draw_chart
    | apply after_py_get
    | apply after_format_fixed
    | apply after_of_option
    | apply after_read_history
    | apply after_ret
    | apply after_raise ];
  cbv beta iota.

(** X1.  Whatever mix of successful and failed cycles a session goes
    through, starting with at most 20 records, its buffer is the last 20 of
    the records it had followed by the records of the successful cycles, in
    order; it never holds more than 20 records, and after a cycle the
    session state always has its history. *)
Theorem history_invariant (envs : list Env) (ss : SessionState) (g : G) :
  (List.length (buffer ss) <= 20)%nat ->
  buffer (fst (cycles envs (ss, g))) = tail 20 (buffer ss ++ records envs)
  /\ (List.length (buffer (fst (cycles envs (ss, g)))) <= 20)%nat
  /\ (forall env st,
        history (fst (cycle env st))
        = Some (next_buffer env (buffer (fst st)))).
Proof.
  intros Hlen.
  assert (Hbuf : buffer (fst (cycles envs (ss, g)))
                 = tail 20 (buffer ss ++ records envs)).
  { rewrite buffer_after_cycles. cbn [fst].
    rewrite <- (tail_short 20 (buffer ss) Hlen) at 1. apply fold_next_buffer. }
  split; [exact Hbuf|]. split.
  - rewrite Hbuf, tail_length. lia.
  - intros env st. unfold cycle. cbn [fst]. now rewrite session_after_run.
Qed.

(** X2.  The live-stream toggle is read and never used: two runs that differ
    only in the toggle are equal, and so are two sequences of cycles; every
    run registers the auto-refresh timer at 5000 ms, whether its fetch
    succeeds or not. *)
Theorem toggle_has_no_effect (b1 b2 : bool) (env : Env) (ss : SessionState) (g : G) :
  run (with_toggle b1 env) ss g = run (with_toggle b2 env) ss g
  /\ (forall envs st,
        cycles (map (with_toggle b1) envs) st
        = cycles (map (with_toggle b2) envs) st)
  /\ In (AutoRefresh 5000) (page (snd (run env ss g))).
Proof.
  split; [reflexivity|]. split.
  { intros envs. unfold cycles.
    induction envs as [|e envs IH]; intros st; simpl; [reflexivity|].
    now rewrite IH. }
  rewrite script_run. destruct (fetched env) as [[data row]|] eqn:Hf.
  - destruct (fetched_object _ _ _ Hf) as [d [-> _]].
    destruct (main_ui_any env d
                (set_session {| history := Some (tail 20 (buffer ss ++ [row])) |}
                   (add_network [metrics_get] (before_fetch env ss g))))
      as [es [Hw _]].
    rewrite Hw. cbn [page add_page set_session add_network].
    rewrite page_before_fetch. now left.
  - cbn [snd page add_page add_network].
    rewrite page_before_fetch. now left.
Qed.

(** X3.  Every run sends exactly one GET, to the metrics endpoint with a
    timeout of 3, as its last request, whether the fetch succeeds or not:
    there is no retry.  Before it come the posts of the burst, if the button
    was pressed; otherwise the run sends nothing else, draws no random
    number and shows the settings alone in the sidebar. *)
Theorem one_metrics_request (env : Env) (ss : SessionState) (g : G) :
  network (snd (run env ss g))
    = map (fun log => Post "http://localhost:8000/ingest" log 1)
        (fst (burst_of env g))
      ++ [Get "http://localhost:8000/metrics" 3]
  /\ rng (snd (run env ss g)) = snd (burst_of env g)
  /\ (button_pressed env = false ->
      burst_of env g = ([], g)
      /\ sidebar (snd (run env ss g)) = settings_panel).
Proof.
  assert (Hw : exists es ss', snd (run env ss g) = add_page es
             (set_session ss'
                (add_network [metrics_get] (before_fetch env ss g)))).
  { rewrite script_run.
    destruct (fetched env) as [[data row]|] eqn:Hf.
    - destruct (fetched_object _ _ _ Hf) as [d [-> _]].
      destruct (main_ui_any env d
                  (set_session {| history := Some (tail 20 (buffer ss ++ [row])) |}
                     (add_network [metrics_get] (before_fetch env ss g))))
        as [es [Hes _]].
      exists es. eexists. exact Hes.
    - exists [unreachable_notice].
      exists (session (add_network [metrics_get] (before_fetch env ss g))).
      now rewrite set_session_same. }
  destruct Hw as [es [ss' Hw]]. rewrite Hw.
  cbn [network rng sidebar add_page set_session add_network].
  unfold before_fetch, after_sidebar, burst_of.
  destruct (button_pressed env).
  - split; [reflexivity|]. split; [reflexivity|]. discriminate.
  - split; [reflexivity|]. split; [reflexivity|]. intros _. split; reflexivity.
Qed.

(** *** Scripts that look at the page and the session state only *)

Lemma view_only_ret {A : Type} (a : A) : view_only (@ret G A a).
Proof. intros w w' Hv. split; [reflexivity | exact Hv]. Qed.

Lemma view_only_raise {A : Type} : view_only (@raise G A).
Proof. intros w w' Hv. split; [reflexivity | exact Hv]. Qed.

Lemma view_only_emit (e : Element) : view_only (@emit G e).
Proof.
  intros w w' [Hs Hp]. split; [reflexivity|]. split; simpl; congruence.
Qed.

Lemma view_only_of_option {A : Type} (o : option A) : view_only (@of_option G A o).
Proof. destruct o; [apply view_only_ret | apply view_only_raise]. Qed.

Lemma view_only_read_history : view_only (@read_history G).
Proof.
  intros w w' [Hs Hp]. unfold read_history. rewrite Hs.
  destruct (history (session w')); (split; [reflexivity | now split]).
Qed.

Lemma view_only_bind {A B : Type} (c : Script A) (k : A -> Script B) :
  view_only c -> (forall a, view_only (k a)) -> view_only (@bind G A B c k).
Proof.
  intros Hc Hk w w' Hv. unfold bind. destruct (Hc w w' Hv) as [Hr Hv'].
  destruct (c w) as [r1 w1], (c w') as [r2 w2]. simpl in Hr, Hv'. subst r2.
  destruct r1 as [a| |]; [now apply Hk | now split | now split].
Qed.

Lemma view_only_for_each {A : Type} (l : list A) (body : A -> Script unit) :
  (forall x, view_only (body x)) -> view_only (@for_each G A l body).
Proof.
  intros Hb. induction l as [|x l IH]; simpl.
  - apply view_only_ret.
  - apply view_only_bind; [apply Hb | intros _; exact IH].
Qed.

Lemma view_only_py_get (data : json) (key : string) (default : json) :
  view_only (@py_get G data key default).
Proof. destruct data; first [apply view_only_ret | apply view_only_raise]. Qed.

Lemma view_only_format_fixed (digits : nat) (v : json) :
  view_only (@format_fixed G digits v).
Proof.
  unfold format_fixed.
  destruct (fixed_ok v); [apply view_only_ret | apply view_only_raise].
Qed.

Lemma view_only_draw_chart env (chart : Element) :
  view_only (@draw_chart G env chart).
Proof.
  unfold draw_chart.
  destruct (chart_raises env chart); [apply view_only_raise | apply view_only_emit].
Qed.

Lemma view_only_show_alert (alert : json) : view_only (@show_alert G alert).
Proof. destruct alert; first [apply view_only_emit | apply view_only_raise]. Qed.

Ltac view_step :=
  first
    [ apply view_only_bind; [|intros]
    | apply view_only_emit
    | apply view_only_draw_chart
    | apply view_only_ret
    | apply view_only_raise
    | apply view_only_of_option
    | apply view_only_read_history
    | apply view_only_py_get
    | apply view_only_format_fixed
    | apply view_only_for_each; intros
    | apply view_only_show_alert
    | match goal with
      | |- view_only (if ?b then _ else _) => destruct b
      | |- view_only (match ?v with JObj _ => _ | _ => _ end) => destruct v
      end ].

Lemma view_only_main_ui env (data : json) : view_only (@main_ui G env data).
Proof.
  unfold main_ui, kpi_cards, performance_trends, latency_percentiles,
    user_distribution, incident_log.
  repeat view_step.
Qed.

(** X4.  The outcome of a run, its page and the session state it leaves
    depend on the answer of the backend, the clock and the chart library
    alone: two runs from the same session state that get the same answer
    end the same way, show the same page and leave the same session state,
    whether or not the burst button was pressed, whatever the posts did and
    whatever the generator drew.  The burst can change the dashboard only
    through the answer of the backend. *)
Theorem burst_leaves_dashboard (env env' : Env) (ss : SessionState) (g g' : G) :
  metrics_response env' metrics_get = metrics_response env metrics_get ->
  clock_hms env' = clock_hms env ->
  clock_full env' = clock_full env ->
  chart_raises env' = chart_raises env ->
  sort_by_requests env' = sort_by_requests env ->
  fst (run env' ss g') = fst (run env ss g)
  /\ page (snd (run env' ss g')) = page (snd (run env ss g))
  /\ session (snd (run env' ss g')) = session (snd (run env ss g)).
Proof.
  intros Hanswer Hhms Hfull Hraises Hsort.
  assert (Hfetched : fetched env' = fetched env).
  { unfold fetched. now rewrite Hanswer, Hhms. }
  rewrite !script_run, Hfetched.
  destruct (fetched env) as [[data row]|].
  - rewrite (main_ui_env env' env data Hfull Hraises Hsort).
    destruct (view_only_main_ui env data
                (set_session {| history := Some (tail 20 (buffer ss ++ [row])) |}
                   (add_network [metrics_get] (before_fetch env' ss g')))
                (set_session {| history := Some (tail 20 (buffer ss ++ [row])) |}
                   (add_network [metrics_get] (before_fetch env ss g))))
      as [Hr [Hs Hp]].
    { split; [reflexivity|]. cbn [page set_session add_network].
      now rewrite !page_before_fetch. }
    auto.
  - cbn [fst snd page session add_page add_network].
    rewrite !page_before_fetch. unfold before_fetch.
    rewrite !session_after_sidebar. auto.
Qed.

(** *** Payloads the page cannot draw *)

Lemma run_result (r : Result unit) : r = Ok tt \/ r = Stop \/ r = Raise.
Proof. destruct r as [[]| |]; auto. Qed.

Lemma str_repeat_length (s : string) (n : nat) :
  String.length (str_repeat s n) = (n * String.length s)%nat.
Proof.
  induction n as [|n IH]; simpl; [reflexivity|].
  rewrite append_length, IH. reflexivity.
Qed.

Lemma kpi_cards_unformattable (d : dict) (percent : json) w :
  py_mul100 (dict_get d "error_rate" (JFloat 0)) = Some percent ->
  fixed_ok percent = false ->
  after (kpi_cards (JObj d)) w
    (fun r es =>
       r = Raise
       /\ es = [Metric "Throughput"
                  (Cat (Str (dict_get d "requests_per_min" (JInt 0))) (Lit " RPM"))]).
Proof.
  intros Hp Hf. unfold kpi_cards. repeat run_step. rewrite Hp.
  repeat run_step. rewrite Hf. split; reflexivity.
Qed.

(** X5.  An error rate that Python can multiply by 100 but cannot format
    with [.1f] (a string, a list, an integer beyond the floats) is not
    rejected by the fetch: its hundredfold is appended to the history, and
    the run then raises at the error-rate card, with the title and the
    throughput card alone on the page.  For a string the appended value is
    the string repeated 100 times. *)
Theorem unformattable_error_rate (env : Env) (ss : SessionState) (g : G)
    (status : Z) (d : dict) (percent : json) :
  metrics_response env metrics_get = HttpReply status (Some (JObj d)) ->
  py_mul100 (dict_get d "error_rate" (JFloat 0)) = Some percent ->
  fixed_ok percent = false ->
  buffer (session (snd (run env ss g)))
    = tail 20 (buffer ss
               ++ [{| Time := clock_hms env;
                      Throughput := dict_get d "requests_per_min" (JInt 0);
                      ErrorRate := percent |}])
  /\ fst (run env ss g) = Raise
  /\ page (snd (run env ss g))
     = [AutoRefresh 5000;
        Title "AI API Real-Time Monitor";
        Metric "Throughput"
          (Cat (Str (dict_get d "requests_per_min" (JInt 0))) (Lit " RPM"))]
  /\ (forall s, dict_get d "error_rate" (JFloat 0) = JStr s ->
                percent = JStr (str_repeat s 100)
                /\ String.length (str_repeat s 100) = (100 * String.length s)%nat).
Proof.
  intros Hr Hp Hf.
  pose proof (fetched_reply env status d percent Hr Hp) as Hfetched.
  split; [|split; [|split]].
  - rewrite session_after_run. unfold next_buffer. now rewrite Hfetched.
  - rewrite script_run, Hfetched. unfold main_ui.
    match goal with
    | |- fst (bind ?c ?k ?w) = _ =>
        assert (Ha : after (bind c k) w (fun r _ => r = Raise))
    end.
    { run_step. run_step. apply after_bind.
      eapply after_weaken; [apply (kpi_cards_unformattable d percent _ Hp Hf)|].
      now intros r es [-> _]. }
    destruct Ha as [es [_ Ha]]. exact Ha.
  - rewrite script_run, Hfetched. unfold main_ui.
    match goal with
    | |- page (snd (bind ?c ?k ?w)) = _ =>
        assert (Ha : after (bind c k) w
                       (fun _ es =>
                          es = [Title "AI API Real-Time Monitor";
                                Metric "Throughput"
                                  (Cat (Str (dict_get d "requests_per_min" (JInt 0)))
                                     (Lit " RPM"))]))
    end.
    { run_step. run_step. apply after_bind.
      eapply after_weaken; [apply (kpi_cards_unformattable d percent _ Hp Hf)|].
      now intros r es [-> ->]. }
    destruct Ha as [es [Hw ->]]. rewrite Hw.
    cbn [page add_page set_session add_network].
    now rewrite page_before_fetch.
  - intros s Hs. rewrite Hs in Hp. simpl in Hp. injection Hp as <-.
    split; [reflexivity | apply str_repeat_length].
Qed.

(** X6.  A fetched object payload with a card that cannot be drawn makes
    the run raise while it draws the page, after the record of this fetch
    was appended to the history, where it stays.  A card cannot be drawn
    when the error rate times 100, the P95 latency or the cost cannot be
    formatted, when per_user_requests is a true value that is not a dict, or
    when anomalies is a true value that is not an iterable of strings; a run
    that ends normally had none of these. *)
Theorem page_raises (env : Env) (ss : SessionState) (g : G)
    (status : Z) (d : dict) (percent : json) :
  metrics_response env metrics_get = HttpReply status (Some (JObj d)) ->
  py_mul100 (dict_get d "error_rate" (JFloat 0)) = Some percent ->
  (page_ok d = false ->
   fst (run env ss g) = Raise
   /\ buffer (session (snd (run env ss g)))
      = tail 20 (buffer ss
                 ++ [{| Time := clock_hms env;
                        Throughput := dict_get d "requests_per_min" (JInt 0);
                        ErrorRate := percent |}]))
  /\ (page_ok d = false <->
      fixed_ok percent = false
      \/ fixed_ok (dict_get d "p95_latency" (JInt 0)) = false
      \/ fixed_ok (dict_get d "estimated_cost_usd" (JFloat 0)) = false
      \/ users_ok (dict_get d "per_user_requests" (JObj [])) = false
      \/ alerts_ok (dict_get d "anomalies" (JArr [])) = false)
  /\ (fst (run env ss g) = Ok tt -> page_ok d = true).
Proof.
  intros Hr Hp.
  pose proof (run_ok_page_ok env ss g status d Hr) as Hok.
  pose proof (fetched_reply env status d percent Hr Hp) as Hf.
  split; [|split].
  - intros Hno. split.
    + destruct (run_result (fst (run env ss g))) as [E | [E | E]]; [| |exact E].
      * apply Hok in E. congruence.
      * apply stopped_iff in E. congruence.
    + rewrite session_after_run. unfold next_buffer. now rewrite Hf.
  - unfold page_ok, percent_ok. rewrite Hp, !Bool.andb_false_iff. tauto.
  - exact Hok.
Qed.

(** *** The page of a run that draws it to its end *)

Ltac page_case :=
  match goal with
  | |- match ?o with Some _ => _ | None => _ end => destruct o eqn:?
  | |- if ?b then _ else _ => destruct b eqn:?
  | |- after (if ?b then _ else _) _ _ => destruct b eqn:?
  end.

Lemma kpi_cards_page (d : dict) (percent : json) w :
  py_mul100 (dict_get d "error_rate" (JFloat 0)) = Some percent ->
  after (kpi_cards (JObj d)) w (fun r es => r = Ok tt -> es = kpi_elements d percent).
Proof.
  intros Hp. unfold kpi_cards. repeat run_step. rewrite Hp.
  repeat first [run_step | page_case]; intros E; try discriminate E; reflexivity.
Qed.

Lemma performance_trends_page env w (df : DataFrame) :
  history (session w) = Some df ->
  after (performance_trends env) w (fun r es => r = Ok tt -> es = trend_elements df).
Proof.
  intros Hdf. unfold performance_trends.
  repeat run_step. rewrite !session_add_page, Hdf.
  repeat run_step. destruct (chart_raises env _); [intros E; discriminate E|].
  repeat run_step. rewrite !session_add_page, Hdf.
  repeat run_step. destruct (chart_raises env _); [intros E; discriminate E|].
  reflexivity.
Qed.

Lemma latency_percentiles_page env (d : dict) w :
  after (latency_percentiles env (JObj d)) w
    (fun r es => r = Ok tt -> es = latency_elements d).
Proof.
  unfold latency_percentiles. repeat run_step.
  destruct (chart_raises env _); [intros E; discriminate E | reflexivity].
Qed.

Lemma user_distribution_page env (d : dict) w :
  after (user_distribution env (JObj d)) w
    (fun r es =>
       r = Ok tt ->
       es = user_elements env (dict_get d "per_user_requests" (JObj []))).
Proof.
  unfold user_distribution, user_elements. repeat run_step.
  destruct (dict_get d "per_user_requests" (JObj [])); cbn [py_truthy];
    repeat first [run_step | page_case];
    first [reflexivity | intros E; discriminate E].
Qed.

Lemma for_each_shown_alerts (alerts : list json) w :
  after (for_each alerts show_alert) w (fun _ es => es = shown_alerts alerts).
Proof.
  revert w. induction alerts as [|a alerts IH]; intros w; simpl.
  - run_step. reflexivity.
  - run_step. destruct a; unfold show_alert; run_step; try reflexivity.
    eapply after_weaken; [apply IH|]. now intros r es ->.
Qed.

Lemma incident_log_page (d : dict) w :
  after (incident_log (JObj d)) w
    (fun _ es => es = incident_elements (dict_get d "anomalies" (JArr []))).
Proof.
  unfold incident_log, incident_elements. repeat run_step.
  destruct (py_truthy (dict_get d "anomalies" (JArr []))).
  - run_step. run_step.
    destruct (py_iter (dict_get d "anomalies" (JArr []))) as [alerts|].
    + eapply after_weaken; [apply for_each_shown_alerts|]. now intros r es ->.
    + reflexivity.
  - run_step. reflexivity.
Qed.

Lemma main_ui_page env (d : dict) (percent : json) (df : DataFrame) w :
  history (session w) = Some df ->
  py_mul100 (dict_get d "error_rate" (JFloat 0)) = Some percent ->
  after (main_ui env (JObj d)) w
    (fun r es => r = Ok tt -> es = main_page env d percent df).
Proof.
  intros Hdf Hp. unfold main_ui, main_page.
  run_step. run_step.
  apply after_bind. eapply after_weaken; [apply (kpi_cards_page d percent _ Hp)|].
  intros [[]| |] es Hkpi; try discriminate. rewrite (Hkpi eq_refl).
  run_step. run_step.
  apply after_bind. eapply after_weaken;
    [apply (performance_trends_page env _ df); now rewrite !session_add_page|].
  intros [[]| |] es0 Htrends; try discriminate. rewrite (Htrends eq_refl).
  run_step. run_step.
  apply after_bind. eapply after_weaken; [apply latency_percentiles_page|].
  intros [[]| |] es1 Hbars; try discriminate. rewrite (Hbars eq_refl).
  apply after_bind. eapply after_weaken; [apply user_distribution_page|].
  intros [[]| |] es2 Husers; try discriminate. rewrite (Husers eq_refl).
  run_step. run_step.
  apply after_bind. eapply after_weaken; [apply incident_log_page|].
  intros [[]| |] es3 ->; try discriminate.
  run_step. intros _.
  cbn [app]. repeat first [rewrite <- app_assoc | rewrite <- app_comm_cons].
  reflexivity.
Qed.

Lemma tail_ends_with (n : nat) (df : DataFrame) (row : Row) :
  (0 < n)%nat ->
  exists older,
    tail n (df ++ [row]) = older ++ [row] /\ (List.length older < n)%nat.
Proof.
  intros Hn. unfold tail. rewrite length_app. cbn [List.length].
  rewrite skipn_app.
  replace (List.length df + 1 - n - List.length df)%nat with 0%nat by lia.
  exists (skipn (List.length df + 1 - n) df). split; [reflexivity|].
  rewrite length_skipn. lia.
Qed.

(** X7.  A run that ends normally has written, after the timer, the title,
    the four cards (throughput, error rate, P95 latency, cost), the two
    trend charts, the three latency bars, the user panel, the incident log
    and the caption, in this order and nothing else.  The trend charts plot
    the history as the fetch of this run left it: at most 20 points, the
    last of them the record just fetched; the user chart shows the rows as
    pandas sorted them. *)
Theorem complete_page (env : Env) (ss : SessionState) (g : G)
    (d : dict) (row : Row) :
  fetched env = Some (JObj d, row) ->
  fst (run env ss g) = Ok tt ->
  page (snd (run env ss g))
    = AutoRefresh 5000
      :: main_page env d (ErrorRate row) (tail 20 (buffer ss ++ [row]))
  /\ exists older,
       tail 20 (buffer ss ++ [row]) = older ++ [row]
       /\ (List.length older < 20)%nat.
Proof.
  intros Hf Hok. split; [|apply tail_ends_with; lia].
  assert (Hp : py_mul100 (dict_get d "error_rate" (JFloat 0)) = Some (ErrorRate row)).
  { destruct (fetched_object _ _ _ Hf) as [d' [E Hd]]. injection E as <-.
    unfold derived_record in Hd.
    destruct (py_mul100 (dict_get d "error_rate" (JFloat 0))); [|discriminate].
    injection Hd as <-. reflexivity. }
  rewrite script_run, Hf in Hok |- *.
  destruct (main_ui_page env d (ErrorRate row) (tail 20 (buffer ss ++ [row]))
              (set_session {| history := Some (tail 20 (buffer ss ++ [row])) |}
                 (add_network [metrics_get] (before_fetch env ss g)))
              eq_refl Hp) as [es [Hw Hes]].
  rewrite Hw, (Hes Hok). cbn [page add_page set_session add_network].
  now rewrite page_before_fetch.
Qed.

(** *** The user panel *)

Lemma user_distribution_value env (d : dict) w :
  user_distribution env (JObj d) w
  = let v := dict_get d "per_user_requests" (JObj []) in
    let heading := Subheader " User Distribution" in
    if py_truthy v then
      match v with
      | JObj counts =>
          match sort_by_requests env counts with
          | Some rows =>
              if chart_raises env (UserChart rows)
              then (Raise, add_page [heading] w)
              else (Ok tt, add_page [heading; UserChart rows] w)
          | None => (Raise, add_page [heading] w)
          end
      | _ => (Raise, add_page [heading] w)
      end
    else (Ok tt, add_page [heading; InfoBox "No active user data in window."] w).
Proof.
  unfold user_distribution, bind, emit, py_get, ret, draw_chart, of_option, raise.
  cbv zeta.
  destruct (py_truthy (dict_get d "per_user_requests" (JObj [])));
    [|now rewrite add_page_add_page].
  destruct (dict_get d "per_user_requests" (JObj [])) as [| | | | | |counts];
    try reflexivity.
  destruct (sort_by_requests env counts) as [rows|]; [|reflexivity].
  unfold ret, emit. cbv beta iota.
  destruct (chart_raises env (UserChart rows)); [reflexivity|].
  now rewrite add_page_add_page.
Qed.

(** X8.  The user panel shows the notice of no data when per_user_requests
    is absent or a false value (an empty dict, null, zero, an empty list or
    text, false).  A true value that is not a dict (a non-empty list or
    text, a number) makes the panel raise after its heading.  For a
    non-empty dict the panel never shows the notice: it shows the chart of
    the rows pandas returns, sorted by count, and raises after its heading
    when pandas or Streamlit raise. *)
Theorem user_panel (env : Env) (d : dict) w :
  let v := dict_get d "per_user_requests" (JObj []) in
  let heading := Subheader " User Distribution" in
  let notice := InfoBox "No active user data in window." in
  (dict_has d "per_user_requests" = false \/ py_truthy v = false ->
   user_distribution env (JObj d) w = (Ok tt, add_page [heading; notice] w))
  /\ (py_truthy v = true ->
      (forall counts, v <> JObj counts) ->
      user_distribution env (JObj d) w = (Raise, add_page [heading] w))
  /\ (forall c counts,
        v = JObj (c :: counts) ->
        user_distribution env (JObj d) w
        = match sort_by_requests env (c :: counts) with
          | Some rows =>
              if chart_raises env (UserChart rows)
              then (Raise, add_page [heading] w)
              else (Ok tt, add_page [heading; UserChart rows] w)
          | None => (Raise, add_page [heading] w)
          end).
Proof.
  cbv zeta. rewrite user_distribution_value. cbv zeta.
  split; [|split].
  - intros [Habsent | Hv].
    + now rewrite (dict_get_absent _ _ _ Habsent).
    + now rewrite Hv.
  - intros Hv Hno. rewrite Hv.
    destruct (dict_get d "per_user_requests" (JObj [])) as [| | | | | |counts];
      try reflexivity.
    now destruct (Hno counts).
  - intros c counts Hv. now rewrite Hv.
Qed.

(** *** Anomalies that are not a sequence of strings *)

Lemma for_each_stops (before : list string) (v : json) (rest : list json) w :
  is_str v = false ->
  for_each (map JStr before ++ v :: rest) show_alert w
  = (Raise, add_page (map alert_box before) w).
Proof.
  intros Hv. revert w. induction before as [|a before IH]; intros w.
  - cbn [map app for_each]. unfold bind.
    destruct v; try discriminate Hv; cbn [show_alert]; unfold raise;
      now rewrite add_page_nil.
  - cbn [map app for_each]. unfold bind. cbn [show_alert]. unfold emit.
    rewrite IH, add_page_add_page. reflexivity.
Qed.

(** X9.  When the anomalies hold an item that is not a string, the incident
    log writes its heading and the boxes of the strings before that item,
    then raises: the later anomalies are not shown, and neither is the
    all-nominal notice. *)
Theorem incident_log_stops_at_non_string (d : dict) (before : list string)
    (v : json) (rest : list json) w :
  is_str v = false ->
  dict_get d "anomalies" (JArr []) = JArr (map JStr before ++ v :: rest) ->
  incident_log (JObj d) w
  = (Raise, add_page (Subheader " Incident Log" :: map alert_box before) w).
Proof.
  intros Hv Ha. unfold incident_log, bind, emit, py_get, ret. rewrite Ha.
  assert (Ht : py_truthy (JArr (map JStr before ++ v :: rest)) = true)
    by now destruct before.
  rewrite Ht. cbn [py_iter of_option ret].
  rewrite (for_each_stops before v rest _ Hv), add_page_add_page. reflexivity.
Qed.

(** X11.  When the anomalies are one string instead of a sequence of
    strings, the incident log treats each of its characters as an anomaly:
    it writes one warning box per character and never an error box,
    whatever the string says; the empty string gives the all-nominal
    notice. *)
Theorem string_anomalies_by_character (d : dict) (s : string) w :
  dict_get d "anomalies" (JArr []) = JStr s ->
  incident_log (JObj d) w
  = (Ok tt,
     add_page
       (Subheader " Incident Log"
        :: match s with
           | EmptyString => [nominal_notice]
           | _ => map (fun ch => WarningBox ("🟡 " ++ ch)) (str_chars s)
           end) w).
Proof.
  intros Ha. unfold incident_log, bind, emit, py_get, ret. rewrite Ha.
  destruct s as [|c s].
  - cbn. now rewrite add_page_add_page.
  - cbn [py_truthy String.eqb negb py_iter of_option ret].
    rewrite for_each_show_alert, add_page_add_page. cbn [app]. do 3 f_equal.
    apply map_ext_in. intros ch Hin. unfold alert_box.
    rewrite classify_one_character; [reflexivity|].
    destruct (str_chars_are_chars (String c s)) as [Hall _].
    rewrite Forall_forall in Hall. exact (Hall ch Hin).
Qed.

(** X12.  When the anomalies are a JSON object instead of a sequence, the
    incident log shows its keys as the anomalies, one classified box per
    key in the order of the object; the empty object gives the all-nominal
    notice. *)
Theorem object_anomalies_by_key (d : dict) (items : dict) w :
  dict_get d "anomalies" (JArr []) = JObj items ->
  incident_log (JObj d) w
  = (Ok tt,
     add_page
       (Subheader " Incident Log"
        :: match items with
           | [] => [nominal_notice]
           | _ => map alert_box (map fst items)
           end) w).
Proof.
  intros Ha. unfold incident_log, bind, emit, py_get, ret. rewrite Ha.
  destruct items as [|item items].
  - cbn. now rewrite add_page_add_page.
  - cbn [py_truthy py_iter of_option ret].
    rewrite <- (map_map fst JStr), for_each_show_alert, add_page_add_page.
    reflexivity.
Qed.

(** *** Where the backend-unreachable notice stands *)

Ltac not_unreachable :=
  cbn [app];
  repeat first
    [ assumption
    | apply Forall_nil
    | apply Forall_cons; [unfold other_than_unreachable; discriminate|]
    | apply Forall_app; split ].

Ltac reachable_block :=
  repeat first [run_step | page_case];
  (split; [not_unreachable | discriminate]).

Lemma kpi_cards_reachable (d : dict) w :
  after (kpi_cards (JObj d)) w
    (fun r es => Forall other_than_unreachable es /\ r <> Stop).
Proof. unfold kpi_cards. reachable_block. Qed.

Lemma performance_trends_reachable env w :
  after (performance_trends env) w
    (fun r es => Forall other_than_unreachable es /\ r <> Stop).
Proof. unfold performance_trends. reachable_block. Qed.

Lemma latency_percentiles_reachable env (d : dict) w :
  after (latency_percentiles env (JObj d)) w
    (fun r es => Forall other_than_unreachable es /\ r <> Stop).
Proof. unfold latency_percentiles. reachable_block. Qed.

Lemma user_distribution_reachable env (d : dict) w :
  after (user_distribution env (JObj d)) w
    (fun r es => Forall other_than_unreachable es /\ r <> Stop).
Proof.
  unfold user_distribution. repeat run_step.
  destruct (dict_get d "per_user_requests" (JObj [])); cbn [py_truthy];
    reachable_block.
Qed.

Lemma alert_box_reachable (a : string) : other_than_unreachable (alert_box a).
Proof. unfold alert_box. destruct (classify a); discriminate. Qed.

Lemma show_alert_reachable (alert : json) w :
  after (show_alert alert) w
    (fun r es => Forall other_than_unreachable es /\ r <> Stop).
Proof.
  destruct alert; unfold show_alert; run_step;
    (split; [|discriminate]); repeat constructor.
  apply alert_box_reachable.
Qed.

Lemma incident_log_reachable (d : dict) w :
  after (incident_log (JObj d)) w
    (fun r es => Forall other_than_unreachable es /\ r <> Stop).
Proof.
  unfold incident_log. repeat run_step.
  destruct (py_truthy (dict_get d "anomalies" (JArr []))).
  - run_step. run_step.
    destruct (py_iter (dict_get d "anomalies" (JArr []))) as [alerts|].
    + eapply after_weaken;
        [apply (after_for_each other_than_unreachable), show_alert_reachable|].
      intros r es [Hall Hr]. split; [not_unreachable | exact Hr].
    + split; [not_unreachable | discriminate].
  - run_step. split; [not_unreachable | discriminate].
Qed.

Ltac reach_with L :=
  apply after_bind; eapply after_weaken; [apply L|];
  let es := fresh "es" in
  let HP := fresh "HP" in
  let Hr := fresh "Hr" in
  intros [[]| |] es [HP Hr]; [| contradiction | not_unreachable].

Lemma main_ui_reachable env (d : dict) w :
  after (main_ui env (JObj d)) w (fun _ es => Forall other_than_unreachable es).
Proof.
  unfold main_ui.
  run_step. run_step.
  reach_with kpi_cards_reachable.
  run_step. run_step.
  reach_with (performance_trends_reachable env).
  run_step. run_step.
  reach_with (latency_percentiles_reachable env).
  reach_with (user_distribution_reachable env).
  run_step. run_step.
  reach_with incident_log_reachable.
  run_step. not_unreachable.
Qed.

(** X13.  The backend-unreachable notice is on the page exactly when the
    fetch failed, and the title of the dashboard exactly when it succeeded:
    no payload, whatever its anomalies say, can make the page of a
    successful fetch show the notice. *)
Theorem unreachable_notice_iff (env : Env) (ss : SessionState) (g : G) :
  (In unreachable_notice (page (snd (run env ss g))) <-> fetched env = None)
  /\ (In (Title "AI API Real-Time Monitor") (page (snd (run env ss g)))
      <-> fetched env <> None).
Proof.
  destruct (fetched env) as [[data row]|] eqn:Hf.
  - destruct (run_not_stopped env ss g data row Hf) as [_ [rest Hpage]].
    split.
    + split; [|discriminate]. intros Hin. exfalso.
      rewrite script_run, Hf in Hin.
      destruct (fetched_object _ _ _ Hf) as [d [-> _]].
      destruct (main_ui_reachable env d
                  (set_session {| history := Some (tail 20 (buffer ss ++ [row])) |}
                     (add_network [metrics_get] (before_fetch env ss g))))
        as [es [Hw Hall]].
      rewrite Hw in Hin. cbn [page add_page set_session add_network] in Hin.
      rewrite page_before_fetch in Hin. destruct Hin as [Hin|Hin]; [discriminate|].
      rewrite Forall_forall in Hall. now apply (Hall _ Hin).
    + split; [discriminate|]. intros _. rewrite Hpage. right. now left.
  - rewrite script_run, Hf. cbn [snd page add_page add_network].
    rewrite page_before_fetch. split.
    + split; [reflexivity|]. intros _. right. now left.
    + split; [|congruence]. intros [Hin|[Hin|[]]]; discriminate.
Qed.

End Beyond.

(** ** The properties beyond the claims on sample inputs *)

Lemma history_invariant_witness :
  (List.length (buffer new_session) <= 20)%nat
  /\ buffer (fst (cycles mixed_cycles (new_session, 0)))
     = tail 20 (buffer new_session ++ records mixed_cycles).
Proof.
  assert (Hlen : (List.length (buffer new_session) <= 20)%nat) by (simpl; lia).
  split; [exact Hlen|].
  exact (proj1 (history_invariant mixed_cycles new_session 0 Hlen)).
Defined.

Lemma burst_leaves_dashboard_witness :
  metrics_response pressed_env metrics_get
    = metrics_response (sample_env ConnectionFailed) metrics_get
  /\ page (snd (run pressed_env one_record_session 7))
     = page (snd (run (sample_env ConnectionFailed) one_record_session 0))
  /\ session (snd (run pressed_env one_record_session 7))
     = session (snd (run (sample_env ConnectionFailed) one_record_session 0)).
Proof.
  split; [reflexivity|].
  exact (proj2 (burst_leaves_dashboard (sample_env ConnectionFailed) pressed_env
                  one_record_session 0 7 eq_refl eq_refl eq_refl eq_refl eq_refl)).
Defined.

Lemma unformattable_error_rate_witness :
  fixed_ok (JStr (str_repeat "0.5" 100)) = false
  /\ fst (run (sample_env (HttpReply 200 (Some (JObj string_rate)))) new_session 0)
     = Raise.
Proof.
  split; [reflexivity|].
  exact (proj1 (proj2
           (unformattable_error_rate
              (sample_env (HttpReply 200 (Some (JObj string_rate))))
              new_session 0 200 string_rate (JStr (str_repeat "0.5" 100))
              eq_refl eq_refl eq_refl))).
Defined.

Lemma page_raises_witness :
  page_ok string_rate = false
  /\ fst (run (sample_env (HttpReply 200 (Some (JObj string_rate)))) new_session 0)
     = Raise.
Proof.
  split; [reflexivity|].
  exact (proj1 (proj1
           (page_raises (sample_env (HttpReply 200 (Some (JObj string_rate))))
              new_session 0 200 string_rate (JStr (str_repeat "0.5" 100))
              eq_refl eq_refl)
           eq_refl)).
Defined.

Lemma complete_page_witness :
  fst (run (sample_env (HttpReply 200 (Some (reading 10 0.01)))) new_session 0) = Ok tt
  /\ page (snd (run (sample_env (HttpReply 200 (Some (reading 10 0.01))))
                  new_session 0))
     = AutoRefresh 5000
       :: main_page (sample_env (HttpReply 200 (Some (reading 10 0.01))))
            [("requests_per_min", JInt 10); ("error_rate", JFloat 0.01)]
            (JFloat 1)
            [{| Time := "12:00:00"; Throughput := JInt 10; ErrorRate := JFloat 1 |}].
Proof.
  assert (Hok : fst (run (sample_env (HttpReply 200 (Some (reading 10 0.01))))
                       new_session 0) = Ok tt) by (vm_compute; reflexivity).
  split; [exact Hok|].
  exact (proj1 (complete_page
                  (sample_env (HttpReply 200 (Some (reading 10 0.01))))
                  new_session 0
                  [("requests_per_min", JInt 10); ("error_rate", JFloat 0.01)]
                  {| Time := "12:00:00"; Throughput := JInt 10; ErrorRate := JFloat 1 |}
                  eq_refl Hok)).
Defined.

Lemma incident_log_stops_at_non_string_witness :
  is_str (JInt 3) = false
  /\ incident_log (JObj broken_anomalies) (start new_session 0)
     = (Raise,
        add_page [Subheader " Incident Log"; WarningBox "🟡 slow"]
          (start new_session 0)).
Proof.
  split; [reflexivity|].
  exact (incident_log_stops_at_non_string broken_anomalies ["slow"] (JInt 3)
           [JStr "late"] (start new_session 0) eq_refl eq_refl).
Defined.

Lemma string_anomalies_by_character_witness :
  incident_log (JObj [("anomalies", JStr "ok")]) (start new_session 0)
  = (Ok tt,
     add_page [Subheader " Incident Log"; WarningBox "🟡 o"; WarningBox "🟡 k"]
       (start new_session 0)).
Proof.
  exact (string_anomalies_by_character [("anomalies", JStr "ok")] "ok"
           (start new_session 0) eq_refl).
Defined.

Lemma object_anomalies_by_key_witness :
  incident_log (JObj [("anomalies", JObj [("critical disk", JInt 1)])])
    (start new_session 0)
  = (Ok tt,
     add_page [Subheader " Incident Log"; ErrorBox "🔴 critical disk"]
       (start new_session 0)).
Proof.
  exact (object_anomalies_by_key [("anomalies", JObj [("critical disk", JInt 1)])]
           [("critical disk", JInt 1)] (start new_session 0) eq_refl).
Defined.
